(** * 3-D placement: occupancy grid, bottom-left-back search, packing loop

    A shallow embedding of [backend/utils/3d_placement_algorithm.py]
    (classes [Item], [Container] and [ThreeDimensionalPacking]) together with
    the properties stated about it.

    Modelling conventions.
    - Python floats are idealised as exact rationals ([Q]); equalities between
      real quantities are stated with [Qeq] ([==]).
    - Python ints are [Z]; [int(f)] truncates towards zero ([py_int]).
    - The numpy boolean volume [Container.space] is a shape together with an
      index function; slicing clips to the shape the way numpy does.
    - Objects mutated in place ([Container], [Item]) become explicit state:
      the packing loop threads the list of containers, addressed by index, and
      every operation returns the updated objects.  Distinct list entries are
      distinct objects.
    - [print] calls are not modelled. *)

From Stdlib Require Import ZArith QArith Qround String Ascii List Bool Lia.
From Stdlib Require Import Sorting.Sorted Sorting.Permutation.
From Stdlib Require OrderedTypeEx.
From Stdlib Require Import Lqa.
From Stdlib Require DecimalString.
From stdpp Require Import base list sorting.
Import ListNotations.

Local Open Scope Z_scope.

(** ** Python arithmetic helpers *)

(** [int(f)]: truncation towards zero. *)
Definition py_int (q : Q) : Z :=
  if Qle_bool 0 q then Qfloor q else Qceiling q.

(** [max(a, b)]: the first argument unless the second is strictly greater. *)
Definition py_max (a b : Q) : Q :=
  if Qle_bool b a then a else b.

(** [a > b] on floats. *)
Definition Qgt_bool (a b : Q) : bool := negb (Qle_bool a b).

(** [str(n)] of an int, as an f-string renders it. *)
Definition py_str_int (z : Z) : string :=
  DecimalString.NilZero.string_of_int (Z.to_int z).

(** [range(a, b)]. *)
Definition range (a b : Z) : list Z := seqZ a (b - a).

(** Loops that [return] from inside: the first iteration producing a value. *)
Fixpoint first_some {A B : Type} (f : A -> option B) (l : list A) : option B :=
  match l with
  | [] => None
  | a :: l' =>
      match f a with
      | Some b => Some b
      | None => first_some f l'
      end
  end.

(** [sorted(l, key=key, reverse=reverse)]: a stable sort that compares keys
    with [<] only.  [a] is inserted in front of the already sorted tail and
    moves right past exactly those elements that must strictly precede it. *)
Section Sorted.
Context {A K : Type} (klt : K -> K -> bool) (key : A -> K) (reverse : bool).

Definition precedes (b a : A) : bool :=
  if reverse then klt (key a) (key b) else klt (key b) (key a).

Fixpoint insert_sorted (a : A) (l : list A) : list A :=
  match l with
  | [] => [a]
  | b :: l' => if precedes b a then b :: insert_sorted a l' else a :: b :: l'
  end.

Fixpoint py_sorted (l : list A) : list A :=
  match l with
  | [] => []
  | a :: l' => insert_sorted a (py_sorted l')
  end.
End Sorted.

(** ** numpy boolean volumes *)

Module NdArray.

Record t := mk {
  shape : Z * Z * Z;
  data : Z -> Z -> Z -> bool
}.

(** [np.zeros(shape, dtype=bool)] *)
Definition zeros (sh : Z * Z * Z) : t := mk sh (fun _ _ _ => false).

(** A slice bound [i] on an axis of length [n]: negative bounds count from
    the end, and every bound is clipped to [0 .. n]. *)
Definition slice_index (i n : Z) : Z :=
  if i <? 0 then Z.max (i + n) 0 else Z.min i n.

(** The indices selected by [lo:hi] on an axis of length [n]. *)
Definition slice (lo hi n : Z) : list Z :=
  range (slice_index lo n) (slice_index hi n).

Definition in_slice (lo hi n i : Z) : bool :=
  (slice_index lo n <=? i) && (i <? slice_index hi n).

(** [np.any(a[x0:x1, y0:y1, z0:z1])] *)
Definition any_slice (a : t) (x0 x1 y0 y1 z0 z1 : Z) : bool :=
  let '(n0, n1, n2) := shape a in
  existsb (fun i =>
    existsb (fun j =>
      existsb (fun k => data a i j k) (slice z0 z1 n2))
      (slice y0 y1 n1))
    (slice x0 x1 n0).

(** [a[x0:x1, y0:y1, z0:z1] = v] *)
Definition set_slice (a : t) (x0 x1 y0 y1 z0 z1 : Z) (v : bool) : t :=
  let '(n0, n1, n2) := shape a in
  mk (shape a)
     (fun i j k =>
        if in_slice x0 x1 n0 i && in_slice y0 y1 n1 j && in_slice z0 z1 n2 k
        then v else data a i j k).

(** [a[i, j, k]] for an index inside the shape. *)
Definition get (a : t) (i j k : Z) : bool := data a i j k.


End NdArray.

(** ** Items *)

Module Item.

Record t := mk {
  item_id : string;
  name : string;
  width : Q;
  depth : Q;
  height : Q;
  volume : Q;
  mass : Q;
  priority : Z;
  expiry_date : string;
  preferred_zone : option string;
  position : option (Q * Q * Q)
}.

(** [Item.__init__] *)
Definition init (item_id name : string) (width depth height mass : Q)
    (priority : Z) (expiry_date : string) (zone : option string) : t :=
  let w := py_max width 1 in
  let d := py_max depth 1 in
  let h := py_max height 1 in
  mk item_id name w d h (w * d * h)%Q (py_max mass (1 # 10)) priority
     expiry_date zone None.

(** [item.position = p] *)
Definition set_position (item : t) (p : option (Q * Q * Q)) : t :=
  mk (item_id item) (name item) (width item) (depth item) (height item)
     (volume item) (mass item) (priority item) (expiry_date item)
     (preferred_zone item) p.

End Item.

(** ** Containers *)

Module Container.

Record t := mk {
  container_id : string;
  width : Q;
  depth : Q;
  height : Q;
  volume : Q;
  zone : string;
  available_volume : Q;
  items : list Item.t;
  resolution : Z;
  space : NdArray.t
}.

(** [Container.__init__] *)
Definition init (container_id : string) (width depth height : Q)
    (zone : string) : t :=
  let w := py_max width 1 in
  let d := py_max depth 1 in
  let h := py_max height 1 in
  let resolution := 10 in
  mk container_id w d h (w * d * h)%Q zone (w * d * h)%Q [] resolution
     (NdArray.zeros (py_int (w * inject_Z resolution),
                     py_int (d * inject_Z resolution),
                     py_int (h * inject_Z resolution))).

(** The three [int(item.<dim> * self.resolution)] of an item. *)
Definition item_cells (self : t) (item : Item.t) : Z * Z * Z :=
  (py_int (Item.width item * inject_Z (resolution self)),
   py_int (Item.depth item * inject_Z (resolution self)),
   py_int (Item.height item * inject_Z (resolution self))).

Definition is_position_valid (self : t) (item : Item.t)
    (position : Z * Z * Z) : bool :=
  let '(x, y, z) := position in
  let res := inject_Z (resolution self) in
  if (x <? 0) || (y <? 0) || (z <? 0)
     || Qgt_bool (inject_Z x + Item.width item * res) (width self * res)
     || Qgt_bool (inject_Z y + Item.depth item * res) (depth self * res)
     || Qgt_bool (inject_Z z + Item.height item * res) (height self * res)
  then false
  else
    let '(item_width, item_depth, item_height) := item_cells self item in
    negb (NdArray.any_slice (space self)
            x (x + item_width) y (y + item_depth) z (z + item_height)).

(** [place_item] returns its boolean together with the container and the
    item as they are after the call. *)
Definition place_item (self : t) (item : Item.t) (position : Z * Z * Z)
    : bool * t * Item.t :=
  if negb (is_position_valid self item position) then (false, self, item)
  else
    let '(x, y, z) := position in
    let '(item_width, item_depth, item_height) := item_cells self item in
    let space' :=
      NdArray.set_slice (space self)
        x (x + item_width) y (y + item_depth) z (z + item_height) true in
    let res := inject_Z (resolution self) in
    let item' :=
      Item.set_position item
        (Some (inject_Z x / res, inject_Z y / res, inject_Z z / res)%Q) in
    (true,
     mk (container_id self) (width self) (depth self) (height self)
        (volume self) (zone self)
        (available_volume self - Item.volume item)%Q
        (items self ++ [item'])
        (resolution self) space',
     item').

End Container.

(** ** The packing algorithm *)

(** One entry of [results["successful_placements"]]. *)
Record Placement := mkPlacement {
  pl_item_id : string;
  pl_container_id : string;
  pl_position : Q * Q * Q;
  pl_dimensions : Q * Q * Q
}.

(** One entry of [results["unplaced_items"]]. *)
Record Unplaced := mkUnplaced {
  un_item_id : string;
  un_reason : string
}.

(** One entry of [results["container_stats"]]. *)
Record ContainerStats := mkContainerStats {
  st_container_id : string;
  st_zone : string;
  st_items_placed : nat;
  st_volume_utilization : Q;
  st_available_volume : Q;
  st_total_volume : Q
}.

Record Results := mkResults {
  successful_placements : list Placement;
  unplaced_items : list Unplaced;
  container_stats : list ContainerStats
}.







Module ThreeDimensionalPacking.

Record t := mk {
  containers : list Container.t;
  items : list Item.t;
  enforce_zones : bool
}.

(** The sort key [(-x.priority, x.expiry_date)] and the [<] of such tuples. *)
Definition item_key (x : Item.t) : Z * string :=
  (- Item.priority x, Item.expiry_date x).

Definition key_lt (a b : Z * string) : bool :=
  (fst a <? fst b) || ((fst a =? fst b) && String.ltb (snd a) (snd b)).

(** [ThreeDimensionalPacking.__init__] *)
Definition init (containers : list Container.t) (items : list Item.t)
    (enforce_zones : bool) : t :=
  mk containers (py_sorted key_lt item_key false items) enforce_zones.

(** The support loop of the stacking pass: the number of footprint cells
    whose cell one layer below is occupied. *)
Definition support_count (container : Container.t)
    (width_cells depth_cells : Z) (x y z item_width item_depth : Z) : Z :=
  fold_left (fun count sx =>
    fold_left (fun count sy =>
      if (sx <? width_cells) && (sy <? depth_cells) && (0 <? z)
         && NdArray.get (Container.space container) sx sy (z - 1)
      then count + 1 else count)
      (range y (y + item_depth)) count)
    (range x (x + item_width)) 0.

(** [y_range], in the order the loops visit it. *)
Definition y_range (container : Container.t) (item : Item.t) : list Z :=
  let depth_cells :=
    py_int (Container.depth container
            * inject_Z (Container.resolution container)) in
  let '(_, item_depth, _) := Container.item_cells container item in
  let ys := range 0 (depth_cells - item_depth + 1) in
  if 5 <? Item.priority item
  then py_sorted Z.ltb id false ys
  else py_sorted Z.ltb id true ys.

Definition floor_pass (container : Container.t) (item : Item.t)
    : option (Z * Z * Z) :=
  let width_cells :=
    py_int (Container.width container
            * inject_Z (Container.resolution container)) in
  let '(item_width, _, _) := Container.item_cells container item in
  first_some (fun x =>
    first_some (fun y =>
      let z := 0 in
      if Container.is_position_valid container item (x, y, z)
      then Some (x, y, z) else None)
      (y_range container item))
    (range 0 (width_cells - item_width + 1)).

Definition stacking_pass (container : Container.t) (item : Item.t)
    : option (Z * Z * Z) :=
  let res := inject_Z (Container.resolution container) in
  let width_cells := py_int (Container.width container * res) in
  let depth_cells := py_int (Container.depth container * res) in
  let height_cells := py_int (Container.height container * res) in
  let '(item_width, item_depth, item_height) :=
    Container.item_cells container item in
  first_some (fun x =>
    first_some (fun y =>
      first_some (fun z =>
        if Container.is_position_valid container item (x, y, z) then
          let required_support :=
            (inject_Z (item_width * item_depth) * (1 # 2))%Q in
          let count :=
            support_count container width_cells depth_cells
              x y z item_width item_depth in
          if Qle_bool required_support (inject_Z count)
          then Some (x, y, z) else None
        else None)
        (range 1 (height_cells - item_height + 1)))
      (y_range container item))
    (range 0 (width_cells - item_width + 1)).

Definition find_bottom_left_back_position (container : Container.t)
    (item : Item.t) : option (Z * Z * Z) :=
  match floor_pass container item with
  | Some p => Some p
  | None => stacking_pass container item
  end.

(** [container.zone == item.preferred_zone] *)
Definition zone_matches (container : Container.t) (item : Item.t) : bool :=
  match Item.preferred_zone item with
  | Some z => String.eqb (Container.zone container) z
  | None => false
  end.

(** The bounds test of the pre-assigned path, in real units. *)
Definition position_within (container : Container.t) (item : Item.t)
    (p : Q * Q * Q) : bool :=
  let '(p0, p1, p2) := p in
  Qle_bool 0 p0
  && Qle_bool (p0 + Item.width item) (Container.width container)
  && Qle_bool 0 p1
  && Qle_bool (p1 + Item.depth item) (Container.depth container)
  && Qle_bool 0 p2
  && Qle_bool (p2 + Item.height item) (Container.height container).

(** [container.items.append(item)] and nothing else. *)
Definition append_item (container : Container.t) (item : Item.t)
    : Container.t :=
  Container.mk (Container.container_id container)
    (Container.width container) (Container.depth container)
    (Container.height container) (Container.volume container)
    (Container.zone container) (Container.available_volume container)
    (Container.items container ++ [item])
    (Container.resolution container) (Container.space container).

Definition dimensions_of (item : Item.t) : Q * Q * Q :=
  (Item.width item, Item.depth item, Item.height item).

(** The branch for an item that already carries a position: the first
    container, in list order, whose bounds contain it. *)
Definition place_existing (containers : list Container.t) (item : Item.t)
    : option (list Container.t * Placement) :=
  match Item.position item with
  | None => None
  | Some p =>
      match list_find (fun c => Is_true (position_within c item p))
              containers with
      | Some (i, container) =>
          Some (<[i := append_item container item]> containers,
                mkPlacement (Item.item_id item)
                  (Container.container_id container) p (dimensions_of item))
      | None => None
      end
  end.

(** [matching_containers], as the list of the containers' indices in
    [self.containers]. *)
Definition matching_containers (enforce_zones : bool)
    (containers : list Container.t) (item : Item.t) : list nat :=
  let matches i :=
    match containers !! i with
    | Some c => zone_matches c item
    | None => false
    end in
  let all := seq 0 (length containers) in
  if enforce_zones
  then List.filter matches all
  else py_sorted Z.ltb (fun i => if matches i then 0 else 1) false all.

Definition too_large (container : Container.t) (item : Item.t) : bool :=
  Qgt_bool (Item.width item) (Container.width container)
  || Qgt_bool (Item.depth item) (Container.depth container)
  || Qgt_bool (Item.height item) (Container.height container).

(** The loop over [matching_containers]; it stops at the first container
    in which the item is placed. *)
Fixpoint try_containers (enforce_zones : bool) (item : Item.t)
    (candidates : list nat) (containers : list Container.t)
    : option (list Container.t * Item.t * Placement) :=
  match candidates with
  | [] => None
  | i :: rest =>
      match containers !! i with
      | None => try_containers enforce_zones item rest containers
      | Some container =>
          if enforce_zones && negb (zone_matches container item)
          then try_containers enforce_zones item rest containers
          else if too_large container item
          then try_containers enforce_zones item rest containers
          else
            match find_bottom_left_back_position container item with
            | None => try_containers enforce_zones item rest containers
            | Some position =>
                let '(ok, container', item') :=
                  Container.place_item container item position in
                if ok then
                  let '(x, y, z) := position in
                  let res := inject_Z (Container.resolution container) in
                  Some (<[i := container']> containers, item',
                        mkPlacement (Item.item_id item)
                          (Container.container_id container)
                          (inject_Z x / res, inject_Z y / res,
                           inject_Z z / res)%Q
                          (dimensions_of item))
                else try_containers enforce_zones item rest containers
            end
      end
  end.

(** [str(item.preferred_zone)] inside the f-strings. *)
Definition zone_repr (z : option string) : string :=
  match z with Some s => s | None => "None" end.

Definition no_zone_reason (item : Item.t) : string :=
  "No containers available with matching zone "
    ++ zone_repr (Item.preferred_zone item).

(** The state of the main loop: the containers, the items processed so far
    (as the loop left them) and the two result lists. *)
Record LoopState := mkLoop {
  ls_containers : list Container.t;
  ls_items : list Item.t;
  ls_successful : list Placement;
  ls_unplaced : list Unplaced
}.

(** The candidate-container part of one iteration. *)
Definition search_and_place (enforce_zones : bool) (st : LoopState)
    (item : Item.t) : LoopState :=
  let matching := matching_containers enforce_zones (ls_containers st) item in
  let no_matching := match matching with [] => true | _ => false end in
  if enforce_zones && no_matching then
    mkLoop (ls_containers st) (ls_items st ++ [item]) (ls_successful st)
      (ls_unplaced st ++ [mkUnplaced (Item.item_id item) (no_zone_reason item)])
  else
    match try_containers enforce_zones item matching (ls_containers st) with
    | Some (containers', item', entry) =>
        mkLoop containers' (ls_items st ++ [item'])
          (ls_successful st ++ [entry]) (ls_unplaced st)
    | None =>
        let reason :=
          if enforce_zones && no_matching then no_zone_reason item
          else "No suitable position found"%string in
        mkLoop (ls_containers st) (ls_items st ++ [item]) (ls_successful st)
          (ls_unplaced st ++ [mkUnplaced (Item.item_id item) reason])
    end.

(** One iteration of [for item_index, item in enumerate(self.items)]. *)
Definition pack_step (enforce_zones : bool) (st : LoopState)
    (item : Item.t) : LoopState :=
  match place_existing (ls_containers st) item with
  | Some (containers', entry) =>
      mkLoop containers' (ls_items st ++ [item])
        (ls_successful st ++ [entry]) (ls_unplaced st)
  | None => search_and_place enforce_zones st item
  end.

Definition stats_of (container : Container.t) : ContainerStats :=
  let utilization_percentage :=
    ((1 - Container.available_volume container / Container.volume container)
     * 100)%Q in
  mkContainerStats (Container.container_id container)
    (Container.zone container) (length (Container.items container))
    utilization_percentage (Container.available_volume container)
    (Container.volume container).

Definition pack_loop (self : t) : LoopState :=
  fold_left (pack_step (enforce_zones self)) (items self)
    (mkLoop (containers self) [] [] []).

(** [pack_items] returns the result record; the second component is the
    packer after the call (its containers and items have been mutated). *)
Definition pack_items (self : t) : Results * t :=
  let st := pack_loop self in
  (mkResults (ls_successful st) (ls_unplaced st)
     (map stats_of (ls_containers st)),
   mk (ls_containers st) (ls_items st) (enforce_zones self)).

(** [get_color_for_priority], for a priority that is an int or [None]. *)
Definition get_color_for_priority (priority : option Z) : string :=
  let p := match priority with Some v => v | None => 5 end in
  let p := Z.max 1 (Z.min 10 p) in
  if 8 <=? p then
    "rgb(220, " ++ py_str_int (60 + (10 - p) * 15) ++ ", "
      ++ py_str_int (40 + (10 - p) * 10) ++ ")"
  else if 4 <=? p then
    "rgb(220, " ++ py_str_int (150 + (7 - p) * 15) ++ ", 30)"
  else
    "rgb(" ++ py_str_int (40 + p * 20) ++ ", "
      ++ py_str_int (100 + p * 20) ++ ", 220)".






End ThreeDimensionalPacking.



(** ** Vocabulary of the statements *)

(** What [Item.__init__] guarantees of the dimensions. *)
Definition item_wf (item : Item.t) : Prop :=
  (1 <= Item.width item)%Q /\ (1 <= Item.depth item)%Q
  /\ (1 <= Item.height item)%Q.

(** What [Container.__init__] guarantees and no operation changes. *)
Definition container_wf (c : Container.t) : Prop :=
  Container.resolution c = 10
  /\ (1 <= Container.width c)%Q /\ (1 <= Container.depth c)%Q
  /\ (1 <= Container.height c)%Q
  /\ NdArray.shape (Container.space c) =
       (py_int (Container.width c * inject_Z (Container.resolution c)),
        py_int (Container.depth c * inject_Z (Container.resolution c)),
        py_int (Container.height c * inject_Z (Container.resolution c))).

(** A container as [Container.__init__] leaves it. *)
Definition container_fresh (c : Container.t) : Prop :=
  container_wf c
  /\ Container.items c = []
  /\ (Container.available_volume c == Container.volume c)%Q
  /\ forall i j k, NdArray.data (Container.space c) i j k = false.

(** The cells [x <= i < x + w], [y <= j < y + d], [z <= k < z + h]. *)
Definition in_box (corner size : Z * Z * Z) (cell : Z * Z * Z) : bool :=
  let '(x, y, z) := corner in
  let '(w, d, h) := size in
  let '(i, j, k) := cell in
  (x <=? i) && (i <? x + w) && (y <=? j) && (j <? y + d)
  && (z <=? k) && (k <? z + h).

(** Everything of a container that placing never changes. *)
Definition same_frame (c c' : Container.t) : Prop :=
  Container.container_id c' = Container.container_id c
  /\ Container.width c' = Container.width c
  /\ Container.depth c' = Container.depth c
  /\ Container.height c' = Container.height c
  /\ Container.volume c' = Container.volume c
  /\ Container.zone c' = Container.zone c
  /\ Container.resolution c' = Container.resolution c
  /\ NdArray.shape (Container.space c') = NdArray.shape (Container.space c).

(** The grid's cell counts and an item's cell counts, as the search
    computes them. *)
Definition width_cells (c : Container.t) : Z :=
  py_int (Container.width c * inject_Z (Container.resolution c)).
Definition depth_cells (c : Container.t) : Z :=
  py_int (Container.depth c * inject_Z (Container.resolution c)).
Definition height_cells (c : Container.t) : Z :=
  py_int (Container.height c * inject_Z (Container.resolution c)).
Definition item_width (c : Container.t) (item : Item.t) : Z :=
  py_int (Item.width item * inject_Z (Container.resolution c)).
Definition item_depth (c : Container.t) (item : Item.t) : Z :=
  py_int (Item.depth item * inject_Z (Container.resolution c)).
Definition item_height (c : Container.t) (item : Item.t) : Z :=
  py_int (Item.height item * inject_Z (Container.resolution c)).

(** The corners the two passes range over. *)
Definition floor_corner (c : Container.t) (item : Item.t) (x y : Z) : Prop :=
  0 <= x <= width_cells c - item_width c item
  /\ 0 <= y <= depth_cells c - item_depth c item.


(** The order in which the loops reach the columns [(x, y)]: [x] ascending
    outermost, then [y] ascending for a priority above 5 and descending
    otherwise. *)
Definition column_before (priority : Z) (x y x' y' : Z) : Prop :=
  x < x' \/ (x = x' /\ if 5 <? priority then y < y' else y' < y).


(** The three ways one iteration of the main loop can end. *)
Inductive step_outcome (enforce_zones : bool)
    (st : ThreeDimensionalPacking.LoopState) (item : Item.t)
    : ThreeDimensionalPacking.LoopState -> Prop :=
| step_passed_through (i : nat) (c : Container.t) (p : Q * Q * Q) :
    Item.position item = Some p ->
    ThreeDimensionalPacking.ls_containers st !! i = Some c ->
    ThreeDimensionalPacking.position_within c item p = true ->
    (forall j c', ThreeDimensionalPacking.ls_containers st !! j = Some c' ->
       (j < i)%nat ->
       ThreeDimensionalPacking.position_within c' item p = false) ->
    step_outcome enforce_zones st item
      (ThreeDimensionalPacking.mkLoop
         (<[i := ThreeDimensionalPacking.append_item c item]>
            (ThreeDimensionalPacking.ls_containers st))
         (ThreeDimensionalPacking.ls_items st ++ [item])
         (ThreeDimensionalPacking.ls_successful st
          ++ [mkPlacement (Item.item_id item) (Container.container_id c) p
                (ThreeDimensionalPacking.dimensions_of item)])
         (ThreeDimensionalPacking.ls_unplaced st))
| step_placed (i : nat) (c c' : Container.t) (x y z : Z) (item' : Item.t) :
    ThreeDimensionalPacking.place_existing
      (ThreeDimensionalPacking.ls_containers st) item = None ->
    ThreeDimensionalPacking.ls_containers st !! i = Some c ->
    (enforce_zones = true ->
     ThreeDimensionalPacking.zone_matches c item = true) ->
    ThreeDimensionalPacking.too_large c item = false ->
    ThreeDimensionalPacking.find_bottom_left_back_position c item
      = Some (x, y, z) ->
    Container.place_item c item (x, y, z) = (true, c', item') ->
    step_outcome enforce_zones st item
      (ThreeDimensionalPacking.mkLoop
         (<[i := c']> (ThreeDimensionalPacking.ls_containers st))
         (ThreeDimensionalPacking.ls_items st ++ [item'])
         (ThreeDimensionalPacking.ls_successful st
          ++ [mkPlacement (Item.item_id item) (Container.container_id c)
                (inject_Z x / inject_Z (Container.resolution c),
                 inject_Z y / inject_Z (Container.resolution c),
                 inject_Z z / inject_Z (Container.resolution c))%Q
                (ThreeDimensionalPacking.dimensions_of item)])
         (ThreeDimensionalPacking.ls_unplaced st))
| step_unplaced (reason : string) :
    ThreeDimensionalPacking.place_existing
      (ThreeDimensionalPacking.ls_containers st) item = None ->
    step_outcome enforce_zones st item
      (ThreeDimensionalPacking.mkLoop
         (ThreeDimensionalPacking.ls_containers st)
         (ThreeDimensionalPacking.ls_items st ++ [item])
         (ThreeDimensionalPacking.ls_successful st)
         (ThreeDimensionalPacking.ls_unplaced st
          ++ [mkUnplaced (Item.item_id item) reason])).



Definition sum_volumes (l : list Item.t) : Q :=
  fold_right (fun item acc => (Item.volume item + acc)%Q) 0%Q l.

(** [available_volume + sum of placed volumes == volume] *)
Definition volume_conserved (c : Container.t) : Prop :=
  (Container.available_volume c + sum_volumes (Container.items c)
   == Container.volume c)%Q.





(** The order of the attempts: [a] may come before [b] when its priority is
    higher, or the priorities are equal and its expiry key is not later. *)
Definition attempt_order (a b : Item.t) : Prop :=
  Item.priority b < Item.priority a
  \/ (Item.priority a = Item.priority b
      /\ String.leb (Item.expiry_date a) (Item.expiry_date b) = true).

(** Items with priority [n] and expiry key [e]. *)
Definition has_key (n : Z) (e : string) (item : Item.t) : bool :=
  (Item.priority item =? n) && String.eqb (Item.expiry_date item) e.

(** [l] is an order-preserving interleaving of [l1] and [l2]. *)
Inductive merge_of {A : Type} : list A -> list A -> list A -> Prop :=
| merge_nil : merge_of [] [] []
| merge_left (a : A) (l1 l2 l : list A) :
    merge_of l1 l2 l -> merge_of (a :: l1) l2 (a :: l)
| merge_right (a : A) (l1 l2 l : list A) :
    merge_of l1 l2 l -> merge_of l1 (a :: l2) (a :: l).

(** Equality of positions in real units. *)
Definition position_eq (p q : Q * Q * Q) : Prop :=
  (fst (fst p) == fst (fst q))%Q /\ (snd (fst p) == snd (fst q))%Q
  /\ (snd p == snd q)%Q.

(** The result records a successful placement of the item in the container
    at position [p]. *)
Definition placed_at (r : Results) (item_id container_id : string)
    (p : Q * Q * Q) : Prop :=
  exists e,
    In e (successful_placements r)
    /\ pl_item_id e = item_id /\ pl_container_id e = container_id
    /\ position_eq (pl_position e) p.

(** A stats entry reports its container. *)
Definition stats_report (c : Container.t) (s : ContainerStats) : Prop :=
  st_container_id s = Container.container_id c
  /\ st_zone s = Container.zone c
  /\ st_items_placed s = length (Container.items c)
  /\ st_volume_utilization s
     = ((1 - Container.available_volume c / Container.volume c) * 100)%Q
  /\ st_available_volume s = Container.available_volume c
  /\ st_total_volume s = Container.volume c.

(** The first example scenario: one container [100 x 100 x 100] in zone
    "A" and one item [50 x 50 x 50] of priority 5 preferring zone "A". *)
Definition scenario_container (container_id : string) : Container.t :=
  Container.init container_id 100 100 100 "A".

Definition scenario_item (item_id name : string) (mass : Q)
    (expiry_date : string) : Item.t :=
  Item.init item_id name 50 50 50 mass 5 expiry_date (Some "A"%string).

Definition scenario (container_id item_id name : string) (mass : Q)
    (expiry_date : string) (enforce_zones : bool)
    : ThreeDimensionalPacking.t :=
  ThreeDimensionalPacking.init [scenario_container container_id]
    [scenario_item item_id name mass expiry_date] enforce_zones.

(** Small inputs for the examples: a container of one unit cube
    ([10 x 10 x 10] cells) and items of one unit cube. *)
Definition unit_container (container_id zone : string) : Container.t :=
  Container.init container_id 1 1 1 zone.

Definition unit_item (item_id zone : string) : Item.t :=
  Item.init item_id "item" 1 1 1 1 5 "2025-01-01" (Some zone).


(** What the constructors guarantee of the derived volume as well. *)
Definition item_built (item : Item.t) : Prop :=
  item_wf item
  /\ (Item.volume item
      == Item.width item * Item.depth item * Item.height item)%Q.

Definition container_built (c : Container.t) : Prop :=
  container_fresh c
  /\ (Container.volume c
      == Container.width c * Container.depth c * Container.height c)%Q.




(** The corner of the first item placed in an empty container. *)
Definition first_corner (c : Container.t) (item : Item.t) : Z * Z * Z :=
  (0,
   if 5 <? Item.priority item then 0
   else py_int (Container.depth c * inject_Z (Container.resolution c)
                - Item.depth item * inject_Z (Container.resolution c)),
   0).

(** A container that cannot take an item in the candidate loop: the size
    pre-check fails or the search finds no position. *)
Definition rejects (c : Container.t) (item : Item.t) : Prop :=
  ThreeDimensionalPacking.too_large c item = true
  \/ ThreeDimensionalPacking.find_bottom_left_back_position c item = None.

(** Without zone enforcement the candidates are the zone-matching containers
    in list order, then the others in list order. *)
Definition tried_before (item : Item.t) (j : nat) (cj : Container.t)
    (i : nat) (c : Container.t) : Prop :=
  (ThreeDimensionalPacking.zone_matches cj item = true
   /\ ThreeDimensionalPacking.zone_matches c item = false)
  \/ (ThreeDimensionalPacking.zone_matches cj item
      = ThreeDimensionalPacking.zone_matches c item
      /\ (j < i)%nat).

(** * Properties *)

(** ** Arithmetic of cell counts *)

Lemma py_int_inject_Z (n : Z) : py_int (inject_Z n) = n.
Proof.
  unfold py_int.
  destruct (Qle_bool 0 (inject_Z n)); [apply Qfloor_Z | apply Qceiling_Z].
Qed.


Lemma py_int_floor (q : Q) : (0 <= q)%Q -> py_int q = Qfloor q.
Proof.
  intros H. unfold py_int.
  apply Qle_bool_iff in H. rewrite H. reflexivity.
Qed.

Lemma py_int_le (q : Q) : (0 <= q)%Q -> (inject_Z (py_int q) <= q)%Q.
Proof. intros H. rewrite (py_int_floor q H). apply Qfloor_le. Qed.

Lemma py_int_mono (a b : Q) : (0 <= a)%Q -> (a <= b)%Q -> py_int a <= py_int b.
Proof.
  intros Ha Hab.
  rewrite (py_int_floor a Ha), (py_int_floor b (Qle_trans _ _ _ Ha Hab)).
  apply Qfloor_resp_le, Hab.
Qed.

Lemma Qgt_bool_false (a b : Q) : Qgt_bool a b = false <-> (a <= b)%Q.
Proof.
  unfold Qgt_bool. rewrite negb_false_iff. apply Qle_bool_iff.
Qed.

Lemma Qgt_bool_true (a b : Q) : Qgt_bool a b = true <-> (b < a)%Q.
Proof.
  unfold Qgt_bool. rewrite negb_true_iff. split.
  - intros H. apply Qnot_le_lt. intros Hle. apply Qle_bool_iff in Hle. congruence.
  - intros H. destruct (Qle_bool a b) eqn:E; [|reflexivity].
    apply Qle_bool_iff in E. exfalso. exact (Qlt_not_le _ _ H E).
Qed.

(** An integer corner [x] whose real extent [x + a] stays below [b] keeps its
    cell extent [x + int(a)] below [int(b)]. *)
Lemma cells_fit (x : Z) (a b : Q) :
  0 <= x -> (0 <= a)%Q -> (inject_Z x + a <= b)%Q -> x + py_int a <= py_int b.
Proof.
  intros Hx Ha Hb.
  assert (Hx' : (0 <= inject_Z x)%Q).
  { change 0%Q with (inject_Z 0). rewrite <- Zle_Qle. exact Hx. }
  assert (H1 : (inject_Z (x + py_int a) <= b)%Q).
  { rewrite inject_Z_plus. eapply Qle_trans; [|exact Hb].
    apply Qplus_le_r. apply py_int_le, Ha. }
  assert (H0 : (0 <= inject_Z (x + py_int a))%Q).
  { rewrite inject_Z_plus.
    rewrite <- (Qplus_0_l 0). apply Qplus_le_compat; [exact Hx'|].
    rewrite (py_int_floor a Ha).
    change 0%Q with (inject_Z 0). rewrite <- Zle_Qle.
    rewrite <- (Qfloor_Z 0). apply Qfloor_resp_le, Ha. }
  rewrite <- (py_int_inject_Z (x + py_int a)).
  apply py_int_mono; assumption.
Qed.

Lemma scaled_nonneg (w : Q) (res : Z) :
  (1 <= w)%Q -> 0 < res -> (0 <= w * inject_Z res)%Q.
Proof.
  intros Hw Hres. apply Qmult_le_0_compat.
  - eapply Qle_trans; [|exact Hw]. discriminate.
  - change 0%Q with (inject_Z 0). rewrite <- Zle_Qle. lia.
Qed.

(** A dimension of at least one unit spans at least [res] cells. *)
Lemma scaled_cells_ge (w : Q) (res : Z) :
  (1 <= w)%Q -> 0 < res -> res <= py_int (w * inject_Z res).
Proof.
  intros Hw Hres.
  rewrite <- (py_int_inject_Z res) at 1.
  apply py_int_mono.
  - change 0%Q with (inject_Z 0). rewrite <- Zle_Qle. lia.
  - rewrite <- (Qmult_1_l (inject_Z res)) at 1.
    apply Qmult_le_compat_r; [exact Hw|].
    change 0%Q with (inject_Z 0). rewrite <- Zle_Qle. lia.
Qed.


Lemma py_max_ge_r (a b : Q) : (b <= py_max a b)%Q.
Proof.
  unfold py_max. destruct (Qle_bool b a) eqn:E.
  - apply Qle_bool_iff, E.
  - apply Qle_refl.
Qed.

Lemma elem_of_range (a b i : Z) : In i (range a b) <-> a <= i < b.
Proof.
  unfold range. rewrite <- list_elem_of_In, elem_of_seqZ. lia.
Qed.

(** ** Slices of the occupancy volume *)

Lemma slice_index_inside (i n : Z) : 0 <= i <= n -> NdArray.slice_index i n = i.
Proof.
  intros H. unfold NdArray.slice_index.
  destruct (Z.ltb_spec i 0); lia.
Qed.

Lemma in_slice_inside (lo hi n i : Z) :
  0 <= lo -> lo <= hi -> hi <= n ->
  NdArray.in_slice lo hi n i = (lo <=? i) && (i <? hi).
Proof.
  intros H0 H1 H2. unfold NdArray.in_slice.
  rewrite !slice_index_inside by lia. reflexivity.
Qed.

Lemma In_slice (lo hi n i : Z) :
  In i (NdArray.slice lo hi n) <-> NdArray.in_slice lo hi n i = true.
Proof.
  unfold NdArray.slice, NdArray.in_slice.
  rewrite elem_of_range, andb_true_iff, Z.leb_le, Z.ltb_lt. reflexivity.
Qed.

Lemma existsb_false {A : Type} (f : A -> bool) (l : list A) :
  existsb f l = false <-> forall a, In a l -> f a = false.
Proof.
  induction l as [|b l IH]; simpl.
  - split; [intros _ a []|reflexivity].
  - rewrite orb_false_iff, IH. split.
    + intros [Hb Hl] a [<-|Ha]; auto.
    + intros H. split; [apply H; left; reflexivity|].
      intros a Ha. apply H. right. exact Ha.
Qed.

(** [np.any] over a slice is false exactly when every selected cell is. *)
Lemma any_slice_false (a : NdArray.t) (x0 x1 y0 y1 z0 z1 : Z) :
  NdArray.any_slice a x0 x1 y0 y1 z0 z1 = false <->
  forall i j k,
    NdArray.in_slice x0 x1 (fst (fst (NdArray.shape a))) i = true ->
    NdArray.in_slice y0 y1 (snd (fst (NdArray.shape a))) j = true ->
    NdArray.in_slice z0 z1 (snd (NdArray.shape a)) k = true ->
    NdArray.data a i j k = false.
Proof.
  unfold NdArray.any_slice.
  destruct (NdArray.shape a) as [[n0 n1] n2]; simpl.
  rewrite existsb_false. split.
  - intros H i j k Hi Hj Hk.
    apply In_slice in Hi, Hj, Hk.
    specialize (H i Hi). rewrite existsb_false in H.
    specialize (H j Hj). rewrite existsb_false in H.
    exact (H k Hk).
  - intros H i Hi. apply existsb_false. intros j Hj.
    apply existsb_false. intros k Hk.
    apply H; apply In_slice; assumption.
Qed.

Lemma any_slice_zeros (sh : Z * Z * Z) (x0 x1 y0 y1 z0 z1 : Z) :
  NdArray.any_slice (NdArray.zeros sh) x0 x1 y0 y1 z0 z1 = false.
Proof. apply any_slice_false. reflexivity. Qed.

Lemma set_slice_shape (a : NdArray.t) (x0 x1 y0 y1 z0 z1 : Z) (v : bool) :
  NdArray.shape (NdArray.set_slice a x0 x1 y0 y1 z0 z1 v) = NdArray.shape a.
Proof.
  unfold NdArray.set_slice. destruct (NdArray.shape a) as [[n0 n1] n2].
  reflexivity.
Qed.

Lemma set_slice_data (a : NdArray.t) (x0 x1 y0 y1 z0 z1 : Z) (v : bool)
    (i j k : Z) :
  NdArray.data (NdArray.set_slice a x0 x1 y0 y1 z0 z1 v) i j k =
  if NdArray.in_slice x0 x1 (fst (fst (NdArray.shape a))) i
     && NdArray.in_slice y0 y1 (snd (fst (NdArray.shape a))) j
     && NdArray.in_slice z0 z1 (snd (NdArray.shape a)) k
  then v else NdArray.data a i j k.
Proof.
  unfold NdArray.set_slice. destruct (NdArray.shape a) as [[n0 n1] n2].
  reflexivity.
Qed.

(** ** Well-formed items and containers *)


Lemma item_init_wf id name w d h m p e z :
  item_wf (Item.init id name w d h m p e z).
Proof. unfold item_wf; simpl. repeat split; apply py_max_ge_r. Qed.


Lemma container_init_fresh id w d h z :
  container_fresh (Container.init id w d h z).
Proof.
  unfold container_fresh, container_wf; simpl.
  repeat split; apply py_max_ge_r.
Qed.


(** What a successful validity check establishes: the corner is
    non-negative, the cell extent lies inside the grid, and no cell of the
    extent is occupied. *)
Lemma is_position_valid_true (c : Container.t) (item : Item.t) (x y z : Z) :
  container_wf c -> item_wf item ->
  Container.is_position_valid c item (x, y, z) = true ->
  let '(iw, id, ih) := Container.item_cells c item in
  let '(n0, n1, n2) := NdArray.shape (Container.space c) in
  (0 <= x /\ 0 <= y /\ 0 <= z)
  /\ (10 <= iw /\ 10 <= id /\ 10 <= ih)
  /\ (x + iw <= n0 /\ y + id <= n1 /\ z + ih <= n2)
  /\ forall i j k, in_box (x, y, z) (iw, id, ih) (i, j, k) = true ->
       NdArray.data (Container.space c) i j k = false.
Proof.
  intros (Hres & Hw & Hd & Hh & Hshape) (Hiw & Hid & Hih).
  unfold Container.is_position_valid, Container.item_cells.
  rewrite Hshape, Hres.
  destruct (_ || _) eqn:Hbounds; [discriminate|].
  repeat (apply orb_false_iff in Hbounds; destruct Hbounds as [Hbounds ?]).
  repeat match goal with
         | H : Qgt_bool _ _ = false |- _ => apply Qgt_bool_false in H
         | H : (_ <? _) = false |- _ => apply Z.ltb_ge in H
         end.
  rewrite negb_true_iff. intros Hany.
  assert (Hcw : x + py_int (Item.width item * inject_Z 10)
                <= py_int (Container.width c * inject_Z 10)).
  { apply cells_fit; auto. apply scaled_nonneg; [auto|lia]. }
  assert (Hcd : y + py_int (Item.depth item * inject_Z 10)
                <= py_int (Container.depth c * inject_Z 10)).
  { apply cells_fit; auto. apply scaled_nonneg; [auto|lia]. }
  assert (Hch : z + py_int (Item.height item * inject_Z 10)
                <= py_int (Container.height c * inject_Z 10)).
  { apply cells_fit; auto. apply scaled_nonneg; [auto|lia]. }
  pose proof (scaled_cells_ge _ 10 Hiw ltac:(lia)) as Gw.
  pose proof (scaled_cells_ge _ 10 Hid ltac:(lia)) as Gd.
  pose proof (scaled_cells_ge _ 10 Hih ltac:(lia)) as Gh.
  split; [auto|]. split; [auto|]. split; [auto|].
  intros i j k Hbox.
  rewrite Hres in Hshape.
  rewrite any_slice_false in Hany. rewrite Hshape in Hany. cbn [fst snd] in Hany.
  unfold in_box in Hbox.
  repeat (apply andb_true_iff in Hbox; destruct Hbox as [Hbox ?]).
  apply Hany; rewrite in_slice_inside by lia; apply andb_true_iff; auto.
Qed.

(** ** [Container.place_item] *)


Lemma same_frame_refl c : same_frame c c.
Proof. unfold same_frame. tauto. Qed.

Lemma same_frame_trans c1 c2 c3 :
  same_frame c1 c2 -> same_frame c2 c3 -> same_frame c1 c3.
Proof. unfold same_frame. intuition congruence. Qed.

Lemma same_frame_wf c c' : same_frame c c' -> container_wf c -> container_wf c'.
Proof.
  unfold same_frame, container_wf.
  intros (_ & Hw & Hd & Hh & _ & _ & Hr & Hs) (? & ? & ? & ? & ?).
  rewrite Hw, Hd, Hh, Hr, Hs. tauto.
Qed.

(** [place_item] unfolded on each outcome of the validity check. *)
Lemma place_item_invalid c item pos :
  Container.is_position_valid c item pos = false ->
  Container.place_item c item pos = (false, c, item).
Proof. intros H. unfold Container.place_item. rewrite H. reflexivity. Qed.

Lemma place_item_valid c item x y z :
  Container.is_position_valid c item (x, y, z) = true ->
  Container.place_item c item (x, y, z) =
  (true,
   Container.mk (Container.container_id c) (Container.width c)
     (Container.depth c) (Container.height c) (Container.volume c)
     (Container.zone c)
     (Container.available_volume c - Item.volume item)%Q
     (Container.items c
      ++ [Item.set_position item
            (Some (inject_Z x / inject_Z (Container.resolution c),
                   inject_Z y / inject_Z (Container.resolution c),
                   inject_Z z / inject_Z (Container.resolution c))%Q)])
     (Container.resolution c)
     (NdArray.set_slice (Container.space c)
        x (x + fst (fst (Container.item_cells c item)))
        y (y + snd (fst (Container.item_cells c item)))
        z (z + snd (Container.item_cells c item)) true),
   Item.set_position item
     (Some (inject_Z x / inject_Z (Container.resolution c),
            inject_Z y / inject_Z (Container.resolution c),
            inject_Z z / inject_Z (Container.resolution c))%Q)).
Proof. intros H. unfold Container.place_item. rewrite H. reflexivity. Qed.

Lemma place_item_ok_valid c item pos c' item' :
  Container.place_item c item pos = (true, c', item') ->
  Container.is_position_valid c item pos = true.
Proof.
  destruct (Container.is_position_valid c item pos) eqn:E; [reflexivity|].
  rewrite (place_item_invalid _ _ _ E). discriminate.
Qed.

(** The effect of a successful [place_item]. *)
Lemma place_item_effect (c c' : Container.t) (item item' : Item.t)
    (x y z : Z) :
  container_wf c -> item_wf item ->
  Container.place_item c item (x, y, z) = (true, c', item') ->
  (forall i j k,
     NdArray.get (Container.space c') i j k =
     in_box (x, y, z) (Container.item_cells c item) (i, j, k)
     || NdArray.get (Container.space c) i j k)
  /\ item' =
     Item.set_position item
       (Some (inject_Z x / inject_Z (Container.resolution c),
              inject_Z y / inject_Z (Container.resolution c),
              inject_Z z / inject_Z (Container.resolution c))%Q)
  /\ Container.items c' = Container.items c ++ [item']
  /\ Container.available_volume c' =
     (Container.available_volume c - Item.volume item)%Q
  /\ same_frame c c'.
Proof.
  intros Hc Hi Hp.
  pose proof (place_item_ok_valid _ _ _ _ _ Hp) as Hv.
  rewrite (place_item_valid _ _ _ _ _ Hv) in Hp.
  injection Hp as <- <-.
  split; [|split; [reflexivity|split; [reflexivity|split; [reflexivity|]]]].
  - intros i j k. unfold NdArray.get. cbn [Container.space].
    rewrite set_slice_data.
    pose proof (is_position_valid_true c item x y z Hc Hi Hv) as Hval.
    unfold Container.item_cells in Hval |- *.
    set (iw := py_int (Item.width item * inject_Z (Container.resolution c)))
      in *.
    set (id := py_int (Item.depth item * inject_Z (Container.resolution c)))
      in *.
    set (ih := py_int (Item.height item * inject_Z (Container.resolution c)))
      in *.
    destruct (NdArray.shape (Container.space c)) as [[n0 n1] n2].
    destruct Hval as ((? & ? & ?) & (? & ? & ?) & (? & ? & ?) & _).
    cbn [fst snd]. rewrite !in_slice_inside by lia.
    unfold in_box.
    destruct (x <=? i), (i <? x + iw), (y <=? j), (j <? y + id),
      (z <=? k), (k <? z + ih); reflexivity.
  - unfold same_frame; cbn. rewrite set_slice_shape. tauto.
Qed.


(** ** Loops with early return *)

Lemma first_some_None {A B : Type} (f : A -> option B) (l : list A) :
  first_some f l = None <-> forall a, In a l -> f a = None.
Proof.
  induction l as [|a l IH]; simpl.
  - split; [intros _ a []|reflexivity].
  - destruct (f a) eqn:E.
    + split; [discriminate|]. intros H.
      rewrite <- E. apply H. left. reflexivity.
    + rewrite IH. split.
      * intros H a' [<-|Ha']; auto.
      * intros H a' Ha'. apply H. right. exact Ha'.
Qed.

(** In a list sorted by [R], the element at which the loop returns comes
    before every other element on which the body would have returned. *)
Lemma first_some_sorted {A B : Type} (R : A -> A -> Prop)
    (f : A -> option B) (l : list A) (b : B) :
  StronglySorted R l -> first_some f l = Some b ->
  exists a, In a l /\ f a = Some b
    /\ forall a', In a' l -> f a' <> None -> a' = a \/ R a a'.
Proof.
  induction 1 as [|a l Hs IH Hall]; simpl; [discriminate|].
  destruct (f a) eqn:E.
  - intros [= ->]. exists a. split; [left; reflexivity|]. split; [exact E|].
    intros a' [<-|Ha'] _; [left; reflexivity|right].
    rewrite Forall_forall in Hall. apply Hall, list_elem_of_In, Ha'.
  - intros Hf. destruct (IH Hf) as (a0 & Hin & Hfa & Hmin).
    exists a0. split; [right; exact Hin|]. split; [exact Hfa|].
    intros a' [<-|Ha'] Hne; [congruence|]. apply Hmin; assumption.
Qed.

(** ** Sorting *)

Section SortedFacts.
Context {A K : Type} (klt : K -> K -> bool) (key : A -> K) (reverse : bool).

Lemma insert_sorted_front (a : A) (l : list A) :
  (forall b l', l = b :: l' -> precedes klt key reverse b a = false) ->
  insert_sorted klt key reverse a l = a :: l.
Proof.
  destruct l as [|b l']; simpl; [reflexivity|].
  intros H. rewrite (H b l' eq_refl). reflexivity.
Qed.

Lemma insert_sorted_back (a : A) (l : list A) :
  (forall b, In b l -> precedes klt key reverse b a = true) ->
  insert_sorted klt key reverse a l = l ++ [a].
Proof.
  induction l as [|b l IH]; simpl; [reflexivity|].
  intros H. rewrite (H b (or_introl eq_refl)). f_equal.
  apply IH. intros b' Hb'. apply H. right. exact Hb'.
Qed.

Lemma insert_sorted_perm (a : A) (l : list A) :
  Permutation (insert_sorted klt key reverse a l) (a :: l).
Proof.
  induction l as [|b l IH]; simpl; [reflexivity|].
  destruct (precedes klt key reverse b a); [|reflexivity].
  rewrite IH. apply perm_swap.
Qed.

Lemma py_sorted_perm (l : list A) :
  Permutation (py_sorted klt key reverse l) l.
Proof.
  induction l as [|a l IH]; simpl; [reflexivity|].
  rewrite insert_sorted_perm, IH. reflexivity.
Qed.

Lemma py_sorted_In (l : list A) (a : A) :
  In a (py_sorted klt key reverse l) <-> In a l.
Proof.
  split; apply Permutation_in; [|symmetry]; apply py_sorted_perm.
Qed.

Lemma py_sorted_length (l : list A) :
  length (py_sorted klt key reverse l) = length l.
Proof. apply Permutation_length, py_sorted_perm. Qed.

End SortedFacts.

(** [sorted] of an ascending range is the range, [sorted(reverse=True)] is
    the range backwards. *)
Lemma py_sorted_range_asc (m n : Z) :
  py_sorted Z.ltb id false (seqZ m n) = seqZ m n.
Proof.
  remember (Z.to_nat n) as k eqn:Hk. revert m n Hk.
  induction k as [|k IH]; intros m n Hk.
  - rewrite seqZ_nil by lia. reflexivity.
  - rewrite seqZ_cons by lia. simpl.
    rewrite (IH (Z.succ m) (Z.pred n)) by lia.
    apply insert_sorted_front. intros b l' Hl'.
    unfold precedes, id. apply Z.ltb_ge.
    assert (Hb : b ∈ seqZ (Z.succ m) (Z.pred n)) by (rewrite Hl'; left).
    apply elem_of_seqZ in Hb. lia.
Qed.

Lemma py_sorted_range_desc (m n : Z) :
  py_sorted Z.ltb id true (seqZ m n) = rev (seqZ m n).
Proof.
  remember (Z.to_nat n) as k eqn:Hk. revert m n Hk.
  induction k as [|k IH]; intros m n Hk.
  - rewrite seqZ_nil by lia. reflexivity.
  - rewrite seqZ_cons by lia. simpl.
    rewrite (IH (Z.succ m) (Z.pred n)) by lia.
    apply insert_sorted_back. intros b Hb.
    unfold precedes, id. apply Z.ltb_lt.
    apply in_rev, list_elem_of_In, elem_of_seqZ in Hb. lia.
Qed.

Lemma seqZ_sorted (m n : Z) : StronglySorted Z.lt (seqZ m n).
Proof.
  remember (Z.to_nat n) as k eqn:Hk. revert m n Hk.
  induction k as [|k IH]; intros m n Hk.
  - rewrite seqZ_nil by lia. constructor.
  - rewrite seqZ_cons by lia. constructor.
    + apply IH. lia.
    + apply Forall_seqZ. intros. lia.
Qed.

Lemma rev_sorted {A : Type} (R : A -> A -> Prop) (l : list A) :
  StronglySorted R l -> StronglySorted (fun a b => R b a) (rev l).
Proof.
  induction 1 as [|a l Hs IH Hall]; simpl; [constructor|].
  apply StronglySorted_app_2; [|exact IH|repeat constructor].
  intros x1 x2 Hx1 Hx2. apply list_elem_of_In in Hx1, Hx2.
  destruct Hx2 as [<-|[]]. apply in_rev in Hx1.
  rewrite Forall_forall in Hall. apply Hall, list_elem_of_In, Hx1.
Qed.

(** ** The placement search *)

Lemma range_sorted (a b : Z) : StronglySorted Z.lt (range a b).
Proof. apply seqZ_sorted. Qed.

Lemma y_range_In (c : Container.t) (item : Item.t) (y : Z) :
  In y (ThreeDimensionalPacking.y_range c item) <->
  0 <= y <= depth_cells c - item_depth c item.
Proof.
  unfold ThreeDimensionalPacking.y_range, Container.item_cells.
  fold (depth_cells c) (item_depth c item).
  destruct (5 <? Item.priority item); rewrite py_sorted_In, elem_of_range; lia.
Qed.

Lemma y_range_sorted (c : Container.t) (item : Item.t) :
  StronglySorted
    (fun y y' => if 5 <? Item.priority item then y < y' else y' < y)
    (ThreeDimensionalPacking.y_range c item).
Proof.
  unfold ThreeDimensionalPacking.y_range, Container.item_cells, range.
  destruct (5 <? Item.priority item).
  - rewrite py_sorted_range_asc. apply seqZ_sorted.
  - rewrite py_sorted_range_desc. apply (rev_sorted Z.lt), seqZ_sorted.
Qed.

Lemma floor_pass_Some (c : Container.t) (item : Item.t) (x y z : Z) :
  ThreeDimensionalPacking.floor_pass c item = Some (x, y, z) ->
  z = 0 /\ floor_corner c item x y
  /\ Container.is_position_valid c item (x, y, 0) = true
  /\ forall x' y', floor_corner c item x' y' ->
       Container.is_position_valid c item (x', y', 0) = true ->
       (x', y') = (x, y) \/ column_before (Item.priority item) x y x' y'.
Proof.
  unfold ThreeDimensionalPacking.floor_pass, Container.item_cells.
  fold (width_cells c) (item_width c item).
  intros Hf.
  apply (first_some_sorted Z.lt) in Hf; [|apply range_sorted].
  destruct Hf as (x0 & Hx0 & Hy & Hxmin).
  apply (first_some_sorted _ _ _ _ (y_range_sorted c item)) in Hy.
  destruct Hy as (y0 & Hy0 & Hv & Hymin).
  destruct (Container.is_position_valid c item (x0, y0, 0)) eqn:Hval;
    [|discriminate].
  injection Hv as <- <- <-.
  apply elem_of_range in Hx0. apply y_range_In in Hy0.
  split; [reflexivity|]. split; [split; [lia|exact Hy0]|].
  split; [exact Hval|].
  intros x' y' [Hx' Hy'] Hval'.
  assert (Hinner : (if Container.is_position_valid c item (x', y', 0)
                    then Some (x', y', 0) else None) <> None)
    by (rewrite Hval'; discriminate).
  destruct (Hxmin x') as [->|Hlt].
  - apply elem_of_range. lia.
  - intros Hnone. rewrite first_some_None in Hnone.
    apply Hinner, (Hnone y'). apply y_range_In, Hy'.
  - destruct (Hymin y') as [->|Hlt].
    + apply y_range_In, Hy'.
    + exact Hinner.
    + left. reflexivity.
    + right. right. split; [reflexivity|exact Hlt].
  - right. left. exact Hlt.
Qed.

Lemma floor_pass_None (c : Container.t) (item : Item.t) :
  ThreeDimensionalPacking.floor_pass c item = None <->
  forall x y, floor_corner c item x y ->
    Container.is_position_valid c item (x, y, 0) = false.
Proof.
  unfold ThreeDimensionalPacking.floor_pass, Container.item_cells.
  fold (width_cells c) (item_width c item).
  rewrite first_some_None. split.
  - intros H x y [Hx Hy].
    assert (Hin : In x (range 0 (width_cells c - item_width c item + 1)))
      by (apply elem_of_range; lia).
    specialize (H x Hin). rewrite first_some_None in H.
    specialize (H y (proj2 (y_range_In c item y) Hy)).
    destruct (Container.is_position_valid c item (x, y, 0));
      [discriminate|reflexivity].
  - intros H x Hx. apply first_some_None. intros y Hy.
    rewrite H; [reflexivity|]. apply elem_of_range in Hx.
    apply y_range_In in Hy. split; [lia|exact Hy].
Qed.

(** C6.  The floor pass visits the in-bounds corners [(x, y, 0)] with [x]
    ascending from 0 as the outer loop and [y] as the inner loop ([y]
    ascending when the priority is strictly greater than 5, descending
    otherwise) and returns the first one that [is_position_valid] accepts:
    the corner it returns is valid and every other valid floor corner comes
    later in that order; it returns nothing exactly when no floor corner is
    valid.  The search returns the floor pass's corner whenever there is
    one, so a position with [z >= 1] is returned only when no floor position
    is valid. *)
Theorem floor_pass_first_valid (c : Container.t) (item : Item.t) :
  (forall x y z,
     ThreeDimensionalPacking.floor_pass c item = Some (x, y, z) ->
     z = 0 /\ floor_corner c item x y
     /\ Container.is_position_valid c item (x, y, 0) = true
     /\ forall x' y', floor_corner c item x' y' ->
          Container.is_position_valid c item (x', y', 0) = true ->
          (x', y') = (x, y) \/ column_before (Item.priority item) x y x' y')
  /\ (ThreeDimensionalPacking.floor_pass c item = None <->
      forall x y, floor_corner c item x y ->
        Container.is_position_valid c item (x, y, 0) = false)
  /\ (forall p,
        ThreeDimensionalPacking.floor_pass c item = Some p ->
        ThreeDimensionalPacking.find_bottom_left_back_position c item = Some p)
  /\ (forall x y z,
        ThreeDimensionalPacking.find_bottom_left_back_position c item
          = Some (x, y, z) ->
        1 <= z ->
        forall x' y', floor_corner c item x' y' ->
          Container.is_position_valid c item (x', y', 0) = false).
Proof.
  split; [apply floor_pass_Some|]. split; [apply floor_pass_None|].
  split.
  - intros p Hp. unfold ThreeDimensionalPacking.find_bottom_left_back_position.
    rewrite Hp. reflexivity.
  - intros x y z Hfind Hz. apply floor_pass_None.
    unfold ThreeDimensionalPacking.find_bottom_left_back_position in Hfind.
    destruct (ThreeDimensionalPacking.floor_pass c item) as [p|] eqn:Hp;
      [|reflexivity].
    injection Hfind as ->. apply floor_pass_Some in Hp. lia.
Qed.











(** ** One iteration of the packing loop *)

Lemma first_some_In {A B : Type} (f : A -> option B) (l : list A) (b : B) :
  first_some f l = Some b -> exists a, In a l /\ f a = Some b.
Proof.
  induction l as [|a l IH]; simpl; [discriminate|].
  destruct (f a) eqn:E.
  - intros [= ->]. exists a. split; [left; reflexivity|exact E].
  - intros H. destruct (IH H) as (a' & Hin & Ha'). exists a'.
    split; [right; exact Hin|exact Ha'].
Qed.

(** Whatever the search returns passes the validity check. *)
Lemma find_valid (c : Container.t) (item : Item.t) (pos : Z * Z * Z) :
  ThreeDimensionalPacking.find_bottom_left_back_position c item = Some pos ->
  Container.is_position_valid c item pos = true.
Proof.
  unfold ThreeDimensionalPacking.find_bottom_left_back_position.
  destruct (ThreeDimensionalPacking.floor_pass c item) as [p|] eqn:Hp.
  - intros [= ->]. destruct pos as [[x y] z].
    destruct (floor_pass_Some c item x y z Hp) as (-> & _ & Hv & _). exact Hv.
  - unfold ThreeDimensionalPacking.stacking_pass.
    destruct (Container.item_cells c item) as [[iw id] ih].
    intros Hs.
    apply first_some_In in Hs. destruct Hs as (x & _ & Hs).
    apply first_some_In in Hs. destruct Hs as (y & _ & Hs).
    apply first_some_In in Hs. destruct Hs as (z & _ & Hs).
    destruct (Container.is_position_valid c item (x, y, z)) eqn:Hv;
      [|discriminate].
    destruct (Qle_bool _ _); [|discriminate].
    injection Hs as <-. exact Hv.
Qed.

Lemma try_containers_Some (enforce : bool) (item : Item.t)
    (candidates : list nat) (cs cs' : list Container.t) (item' : Item.t)
    (entry : Placement) :
  ThreeDimensionalPacking.try_containers enforce item candidates cs
    = Some (cs', item', entry) ->
  exists i c c' x y z,
    In i candidates
    /\ cs !! i = Some c
    /\ (enforce = true -> ThreeDimensionalPacking.zone_matches c item = true)
    /\ ThreeDimensionalPacking.too_large c item = false
    /\ ThreeDimensionalPacking.find_bottom_left_back_position c item
       = Some (x, y, z)
    /\ Container.place_item c item (x, y, z) = (true, c', item')
    /\ cs' = <[i := c']> cs
    /\ entry =
       mkPlacement (Item.item_id item) (Container.container_id c)
         (inject_Z x / inject_Z (Container.resolution c),
          inject_Z y / inject_Z (Container.resolution c),
          inject_Z z / inject_Z (Container.resolution c))%Q
         (ThreeDimensionalPacking.dimensions_of item).
Proof.
  induction candidates as [|i rest IH]; simpl; [discriminate|].
  assert (Hrest :
    ThreeDimensionalPacking.try_containers enforce item rest cs
      = Some (cs', item', entry) ->
    exists i0 c c' x y z,
      (i = i0 \/ In i0 rest) /\ cs !! i0 = Some c
      /\ (enforce = true -> ThreeDimensionalPacking.zone_matches c item = true)
      /\ ThreeDimensionalPacking.too_large c item = false
      /\ ThreeDimensionalPacking.find_bottom_left_back_position c item
         = Some (x, y, z)
      /\ Container.place_item c item (x, y, z) = (true, c', item')
      /\ cs' = <[i0 := c']> cs
      /\ entry =
         mkPlacement (Item.item_id item) (Container.container_id c)
           (inject_Z x / inject_Z (Container.resolution c),
            inject_Z y / inject_Z (Container.resolution c),
            inject_Z z / inject_Z (Container.resolution c))%Q
           (ThreeDimensionalPacking.dimensions_of item)).
  { intros H. destruct (IH H) as (i0 & c & c' & x & y & z & Hin & Hrest).
    exists i0, c, c', x, y, z. split; [right; exact Hin|exact Hrest]. }
  destruct (cs !! i) as [c|] eqn:Hc; [|exact Hrest].
  destruct (enforce && negb (ThreeDimensionalPacking.zone_matches c item))
    eqn:Hz; [exact Hrest|].
  destruct (ThreeDimensionalPacking.too_large c item) eqn:Hl; [exact Hrest|].
  destruct (ThreeDimensionalPacking.find_bottom_left_back_position c item)
    as [[[x y] z]|] eqn:Hf; [|exact Hrest].
  destruct (Container.place_item c item (x, y, z)) as [[ok c'] it'] eqn:Hp.
  destruct ok; [|exact Hrest].
  intros [= <- <- <-].
  exists i, c, c', x, y, z.
  split; [left; reflexivity|]. split; [exact Hc|].
  split.
  { intros ->. simpl in Hz. apply negb_false_iff in Hz. exact Hz. }
  repeat split; auto.
Qed.

Lemma place_existing_Some (cs cs' : list Container.t) (item : Item.t)
    (entry : Placement) :
  ThreeDimensionalPacking.place_existing cs item = Some (cs', entry) ->
  exists i c p,
    Item.position item = Some p
    /\ cs !! i = Some c
    /\ ThreeDimensionalPacking.position_within c item p = true
    /\ (forall j c', cs !! j = Some c' -> (j < i)%nat ->
          ThreeDimensionalPacking.position_within c' item p = false)
    /\ cs' = <[i := ThreeDimensionalPacking.append_item c item]> cs
    /\ entry =
       mkPlacement (Item.item_id item) (Container.container_id c) p
         (ThreeDimensionalPacking.dimensions_of item).
Proof.
  unfold ThreeDimensionalPacking.place_existing.
  destruct (Item.position item) as [p|]; [|discriminate].
  destruct (list_find _ cs) as [[i c]|] eqn:Hfind; [|discriminate].
  intros [= <- <-]. apply list_find_Some in Hfind.
  destruct Hfind as (Hi & Hc & Hmin).
  exists i, c, p. split; [reflexivity|]. split; [exact Hi|].
  split; [apply Is_true_true, Hc|].
  split; [|split; reflexivity].
  intros j c' Hj Hlt. specialize (Hmin j c' Hj Hlt).
  destruct (ThreeDimensionalPacking.position_within c' item p);
    [exfalso; apply Hmin; exact I|reflexivity].
Qed.

(** Each iteration ends in exactly one of the three ways. *)
Lemma pack_step_outcome (enforce : bool)
    (st : ThreeDimensionalPacking.LoopState) (item : Item.t) :
  step_outcome enforce st item (ThreeDimensionalPacking.pack_step enforce st item).
Proof.
  unfold ThreeDimensionalPacking.pack_step.
  destruct (ThreeDimensionalPacking.place_existing _ item)
    as [[cs' entry]|] eqn:Hpe.
  - destruct (place_existing_Some _ _ _ _ Hpe)
      as (i & c & p & Hp & Hi & Hw & Hmin & -> & ->).
    eapply step_passed_through; eassumption.
  - unfold ThreeDimensionalPacking.search_and_place.
    destruct (enforce && _) eqn:Hnone.
    + apply step_unplaced, Hpe.
    + destruct (ThreeDimensionalPacking.try_containers _ _ _ _)
        as [[[cs' item'] entry]|] eqn:Htry.
      * destruct (try_containers_Some _ _ _ _ _ _ _ Htry)
          as (i & c & c' & x & y & z & _ & Hi & Hz & Hl & Hf & Hp & -> & ->).
        eapply step_placed; eassumption.
      * apply step_unplaced, Hpe.
Qed.

(** ** Invariants of the packing loop *)

Lemma pack_loop_invariant (Inv : ThreeDimensionalPacking.LoopState -> Prop)
    (self : ThreeDimensionalPacking.t) :
  Inv (ThreeDimensionalPacking.mkLoop
         (ThreeDimensionalPacking.containers self) [] [] []) ->
  (forall st item st',
     In item (ThreeDimensionalPacking.items self) -> Inv st ->
     step_outcome (ThreeDimensionalPacking.enforce_zones self) st item st' ->
     Inv st') ->
  Inv (ThreeDimensionalPacking.pack_loop self).
Proof.
  unfold ThreeDimensionalPacking.pack_loop.
  generalize (ThreeDimensionalPacking.mkLoop
                (ThreeDimensionalPacking.containers self) [] [] []).
  induction (ThreeDimensionalPacking.items self) as [|item l IH];
    intros st Hst Hstep; simpl; [exact Hst|].
  apply IH.
  - apply (Hstep st item); [left; reflexivity|exact Hst|].
    apply pack_step_outcome.
  - intros st1 item1 st1' Hin. apply Hstep. right. exact Hin.
Qed.

Lemma init_items_In (cs : list Container.t) (its : list Item.t)
    (enforce : bool) (item : Item.t) :
  In item (ThreeDimensionalPacking.items
             (ThreeDimensionalPacking.init cs its enforce)) <-> In item its.
Proof. apply py_sorted_In. Qed.


Lemma append_item_frame (c : Container.t) (item : Item.t) :
  same_frame c (ThreeDimensionalPacking.append_item c item).
Proof. unfold same_frame. cbn. tauto. Qed.

Lemma place_item_frame (c c' : Container.t) (item item' : Item.t)
    (pos : Z * Z * Z) (ok : bool) :
  Container.place_item c item pos = (ok, c', item') -> same_frame c c'.
Proof.
  unfold Container.place_item.
  destruct (negb _).
  - intros [= _ <- _]. apply same_frame_refl.
  - destruct pos as [[x y] z].
    destruct (Container.item_cells c item) as [[iw id] ih].
    intros [= _ <- _]. unfold same_frame; cbn. rewrite set_slice_shape. tauto.
Qed.

Lemma Forall2_insert_r_frame (cs0 cs : list Container.t) (i : nat)
    (c c' : Container.t) :
  Forall2 same_frame cs0 cs -> cs !! i = Some c -> same_frame c c' ->
  Forall2 same_frame cs0 (<[i := c']> cs).
Proof.
  intros HF Hi Hf.
  destruct (Forall2_lookup_r _ _ _ _ _ HF Hi) as (c0 & Hc0 & Hf0).
  rewrite <- (list_insert_id cs0 i c0 Hc0).
  apply Forall2_insert; [exact HF|].
  eapply same_frame_trans; eassumption.
Qed.

(** The containers keep their identity, dimensions and zone throughout. *)
Lemma step_frames (enforce : bool) (cs0 : list Container.t)
    (st st' : ThreeDimensionalPacking.LoopState) (item : Item.t) :
  Forall2 same_frame cs0 (ThreeDimensionalPacking.ls_containers st) ->
  step_outcome enforce st item st' ->
  Forall2 same_frame cs0 (ThreeDimensionalPacking.ls_containers st').
Proof.
  intros HF Hstep. destruct Hstep; cbn.
  - eapply Forall2_insert_r_frame; [exact HF|eassumption|].
    apply append_item_frame.
  - eapply Forall2_insert_r_frame; [exact HF|eassumption|].
    eapply place_item_frame; eassumption.
  - exact HF.
Qed.

Lemma Forall2_same_frame_refl (cs : list Container.t) :
  Forall2 same_frame cs cs.
Proof. induction cs; constructor; [apply same_frame_refl|assumption]. Qed.


(** ** Volume accounting *)






(** ** Disjointness of the placed items *)






(** ** Zone enforcement *)

Lemma zone_matches_frame (c c' : Container.t) (item : Item.t) :
  same_frame c c' ->
  ThreeDimensionalPacking.zone_matches c' item
  = ThreeDimensionalPacking.zone_matches c item.
Proof.
  intros (_ & _ & _ & _ & _ & Hz & _).
  unfold ThreeDimensionalPacking.zone_matches. rewrite Hz. reflexivity.
Qed.




(** ** Items that arrive with a position *)







(** Result entries and placed items are only ever added. *)
Lemma place_item_items (c c' : Container.t) (item item' : Item.t)
    (pos : Z * Z * Z) :
  Container.place_item c item pos = (true, c', item') ->
  Container.items c' = Container.items c ++ [item'].
Proof.
  intros Hp. destruct pos as [[x y] z].
  pose proof (place_item_ok_valid _ _ _ _ _ Hp) as Hv.
  rewrite (place_item_valid _ _ _ _ _ Hv) in Hp.
  injection Hp as <- <-. reflexivity.
Qed.

Lemma step_keeps (enforce : bool)
    (st st' : ThreeDimensionalPacking.LoopState) (item : Item.t) :
  step_outcome enforce st item st' ->
  (forall e, In e (ThreeDimensionalPacking.ls_successful st) ->
     In e (ThreeDimensionalPacking.ls_successful st'))
  /\ (forall i c a,
        ThreeDimensionalPacking.ls_containers st !! i = Some c ->
        In a (Container.items c) ->
        exists c', ThreeDimensionalPacking.ls_containers st' !! i = Some c'
                   /\ In a (Container.items c')).
Proof.
  intros Hstep.
  destruct Hstep as [i0 c0 p Hp Hi0 Hw Hmin
                    |i0 c0 c0' x y z item' Hpe Hi0 Hz Hl Hf Hpl|reason Hpe];
    cbn [ThreeDimensionalPacking.ls_successful
         ThreeDimensionalPacking.ls_containers].
  - split; [intros e He; apply in_or_app; left; exact He|].
    intros i c a Hi Ha. destruct (Nat.eq_dec i0 i) as [->|Hne].
    + rewrite Hi0 in Hi. injection Hi as <-.
      exists (ThreeDimensionalPacking.append_item c0 item). split.
      * apply list_lookup_insert_eq. eapply lookup_lt_Some, Hi0.
      * cbn. apply in_or_app. left. exact Ha.
    + exists c. rewrite list_lookup_insert_ne by exact Hne. auto.
  - split; [intros e He; apply in_or_app; left; exact He|].
    intros i c a Hi Ha. destruct (Nat.eq_dec i0 i) as [->|Hne].
    + rewrite Hi0 in Hi. injection Hi as <-.
      exists c0'. split.
      * apply list_lookup_insert_eq. eapply lookup_lt_Some, Hi0.
      * rewrite (place_item_items _ _ _ _ _ Hpl).
        apply in_or_app. left. exact Ha.
    + exists c. rewrite list_lookup_insert_ne by exact Hne. auto.
  - split; [auto|]. intros i c a Hi Ha. exists c. auto.
Qed.

Lemma fold_keeps (enforce : bool) (cs0 : list Container.t) (l : list Item.t)
    (st : ThreeDimensionalPacking.LoopState) :
  Forall2 same_frame cs0 (ThreeDimensionalPacking.ls_containers st) ->
  let st' := fold_left (ThreeDimensionalPacking.pack_step enforce) l st in
  Forall2 same_frame cs0 (ThreeDimensionalPacking.ls_containers st')
  /\ (forall e, In e (ThreeDimensionalPacking.ls_successful st) ->
        In e (ThreeDimensionalPacking.ls_successful st'))
  /\ (forall i c a,
        ThreeDimensionalPacking.ls_containers st !! i = Some c ->
        In a (Container.items c) ->
        exists c', ThreeDimensionalPacking.ls_containers st' !! i = Some c'
                   /\ In a (Container.items c')).
Proof.
  revert st. induction l as [|item l IH]; intros st HF; cbn [fold_left].
  - cbv zeta. split; [exact HF|]. split; [auto|].
    intros i c a Hi Ha. exists c. auto.
  - pose proof (pack_step_outcome enforce st item) as Hstep.
    pose proof (step_frames enforce cs0 _ _ _ HF Hstep) as HF'.
    destruct (step_keeps _ _ _ _ Hstep) as [Hs Hc].
    destruct (IH _ HF') as (HF'' & Hs' & Hc'). cbv zeta.
    split; [exact HF''|]. split; [auto|].
    intros i c a Hi Ha.
    destruct (Hc i c a Hi Ha) as (c1 & Hi1 & Ha1).
    exact (Hc' i c1 a Hi1 Ha1).
Qed.



(** ** The order of the attempts *)

Section SortedOrder.
Context {A K : Type} (klt : K -> K -> bool) (key : A -> K).
Hypothesis klt_irrefl : forall k, klt k k = false.
Hypothesis klt_trans :
  forall a b c, klt a b = true -> klt b c = true -> klt a c = true.
Hypothesis klt_total :
  forall a b, klt a b = false -> klt b a = false -> a = b.

(** [a] is not after [b]: the key of [b] is not below the key of [a]. *)
Definition not_after (a b : A) : Prop := klt (key b) (key a) = false.

Lemma not_after_trans (a b c : A) :
  not_after a b -> not_after b c -> not_after a c.
Proof.
  unfold not_after. intros Hab Hbc.
  destruct (klt (key c) (key a)) eqn:Hca; [exfalso|reflexivity].
  destruct (klt (key a) (key b)) eqn:Hab'.
  - rewrite (klt_trans _ _ _ Hca Hab') in Hbc. discriminate.
  - rewrite <- (klt_total _ _ Hab' Hab) in Hbc. congruence.
Qed.

Lemma precedes_not_after (a b : A) :
  precedes klt key false b a = true -> not_after b a.
Proof.
  unfold precedes, not_after. intros Hba.
  destruct (klt (key a) (key b)) eqn:Hab; [exfalso|reflexivity].
  pose proof (klt_trans _ _ _ Hab Hba) as H.
  rewrite klt_irrefl in H. discriminate.
Qed.

Lemma insert_sorted_sorted (a : A) (l : list A) :
  StronglySorted not_after l ->
  StronglySorted not_after (insert_sorted klt key false a l).
Proof.
  induction 1 as [|b l Hs IH Hall]; cbn [insert_sorted].
  - repeat constructor.
  - destruct (precedes klt key false b a) eqn:Hp.
    + constructor; [exact IH|].
      apply Forall_forall. intros x Hx.
      apply list_elem_of_In, (Permutation_in _ (insert_sorted_perm _ _ _ a l))
        in Hx.
      destruct Hx as [<-|Hx]; [apply precedes_not_after, Hp|].
      rewrite Forall_forall in Hall. apply Hall, list_elem_of_In, Hx.
    + constructor; [constructor; assumption|].
      constructor; [exact Hp|].
      eapply Forall_impl; [exact Hall|].
      intros x Hx. eapply not_after_trans; [exact Hp|exact Hx].
Qed.

Lemma py_sorted_sorted (l : list A) :
  StronglySorted not_after (py_sorted klt key false l).
Proof.
  induction l as [|a l IH]; simpl; [constructor|].
  apply insert_sorted_sorted, IH.
Qed.

(** Stability: elements that are mutually tied keep their input order. *)
Lemma insert_sorted_filter (p : A -> bool) (a : A) (l : list A) :
  (forall x y, p x = true -> p y = true -> klt (key x) (key y) = false) ->
  List.filter p (insert_sorted klt key false a l) = List.filter p (a :: l).
Proof.
  intros Htie. induction l as [|b l IH]; [reflexivity|].
  cbn [insert_sorted]. destruct (precedes klt key false b a) eqn:Hp.
  - cbn [List.filter] in IH |- *. rewrite IH.
    destruct (p a) eqn:Hpa; [|reflexivity].
    destruct (p b) eqn:Hpb; [|reflexivity].
    unfold precedes in Hp. rewrite (Htie b a Hpb Hpa) in Hp. discriminate.
  - reflexivity.
Qed.

Lemma py_sorted_stable (p : A -> bool) (l : list A) :
  (forall x y, p x = true -> p y = true -> klt (key x) (key y) = false) ->
  List.filter p (py_sorted klt key false l) = List.filter p l.
Proof.
  intros Htie. induction l as [|a l IH]; [reflexivity|].
  cbn [py_sorted]. rewrite (insert_sorted_filter p a _ Htie).
  cbn [List.filter]. rewrite IH. reflexivity.
Qed.

End SortedOrder.

Lemma string_ltb_lt (a b : string) :
  String.ltb a b = true <-> OrderedTypeEx.String_as_OT.lt a b.
Proof.
  rewrite <- OrderedTypeEx.String_as_OT.cmp_lt.
  unfold String.ltb, OrderedTypeEx.String_as_OT.cmp.
  destruct (String.compare a b); split; congruence.
Qed.

Lemma string_ltb_irrefl (a : string) : String.ltb a a = false.
Proof.
  unfold String.ltb.
  pose proof (proj2 (OrderedTypeEx.String_as_OT.cmp_eq a a) eq_refl) as H.
  unfold OrderedTypeEx.String_as_OT.cmp in H. rewrite H. reflexivity.
Qed.

Lemma string_ltb_trans (a b c : string) :
  String.ltb a b = true -> String.ltb b c = true -> String.ltb a c = true.
Proof.
  rewrite !string_ltb_lt. apply OrderedTypeEx.String_as_OT.lt_trans.
Qed.

Lemma string_ltb_total (a b : string) :
  String.ltb a b = false -> String.ltb b a = false -> a = b.
Proof.
  unfold String.ltb. rewrite (String.compare_antisym b a).
  destruct (String.compare a b) eqn:E; simpl; try discriminate.
  intros _ _. apply String.compare_eq_iff, E.
Qed.

Lemma string_leb_ltb (a b : string) :
  String.leb a b = true <-> String.ltb b a = false.
Proof.
  unfold String.leb, String.ltb. rewrite (String.compare_antisym b a).
  destruct (String.compare a b); simpl; split; congruence.
Qed.

Lemma key_lt_irrefl (k : Z * string) :
  ThreeDimensionalPacking.key_lt k k = false.
Proof.
  unfold ThreeDimensionalPacking.key_lt.
  rewrite Z.ltb_irrefl, Z.eqb_refl, string_ltb_irrefl. reflexivity.
Qed.

Lemma key_lt_spec (a b : Z * string) :
  ThreeDimensionalPacking.key_lt a b = true <->
  fst a < fst b \/ (fst a = fst b /\ String.ltb (snd a) (snd b) = true).
Proof.
  unfold ThreeDimensionalPacking.key_lt.
  rewrite orb_true_iff, andb_true_iff, Z.ltb_lt, Z.eqb_eq. reflexivity.
Qed.

Lemma key_lt_trans (a b c : Z * string) :
  ThreeDimensionalPacking.key_lt a b = true ->
  ThreeDimensionalPacking.key_lt b c = true ->
  ThreeDimensionalPacking.key_lt a c = true.
Proof.
  rewrite !key_lt_spec.
  intros [Hab|[Hab Hs1]] [Hbc|[Hbc Hs2]]; try (left; lia).
  right. split; [lia|]. eapply string_ltb_trans; eassumption.
Qed.

Lemma key_lt_total (a b : Z * string) :
  ThreeDimensionalPacking.key_lt a b = false ->
  ThreeDimensionalPacking.key_lt b a = false -> a = b.
Proof.
  unfold ThreeDimensionalPacking.key_lt. destruct a as [pa ea], b as [pb eb].
  cbn [fst snd].
  rewrite !orb_false_iff, !andb_false_iff, !Z.ltb_ge, !Z.eqb_neq.
  intros [H1 H2] [H3 H4].
  assert (pa = pb) by lia. subst pb. f_equal.
  destruct H2 as [H2|H2]; [congruence|].
  destruct H4 as [H4|H4]; [congruence|].
  apply string_ltb_total; assumption.
Qed.

Lemma not_after_attempt_order (a b : Item.t) :
  not_after ThreeDimensionalPacking.key_lt ThreeDimensionalPacking.item_key a b
  <-> attempt_order a b.
Proof.
  unfold not_after, attempt_order, ThreeDimensionalPacking.key_lt,
    ThreeDimensionalPacking.item_key. cbn [fst snd].
  rewrite orb_false_iff, andb_false_iff, Z.ltb_ge, Z.eqb_neq, string_leb_ltb.
  split.
  - intros [H1 [H2|H2]].
    + left. lia.
    + destruct (Z.eq_dec (Item.priority a) (Item.priority b)) as [E|E];
        [right; split; assumption|left; lia].
  - intros [H|[H1 H2]]; (split; [lia|]); [left; lia|right; exact H2].
Qed.

Lemma has_key_tied (n : Z) (e : string) (x y : Item.t) :
  has_key n e x = true -> has_key n e y = true ->
  ThreeDimensionalPacking.key_lt (ThreeDimensionalPacking.item_key x)
    (ThreeDimensionalPacking.item_key y) = false.
Proof.
  unfold has_key, ThreeDimensionalPacking.item_key.
  rewrite !andb_true_iff, !Z.eqb_eq, !String.eqb_eq.
  intros [-> ->] [-> ->]. apply key_lt_irrefl.
Qed.

Lemma merge_of_snoc_left {A : Type} (a : A) (l1 l2 l : list A) :
  merge_of l1 l2 l -> merge_of (l1 ++ [a]) l2 (l ++ [a]).
Proof.
  induction 1; simpl; constructor; try assumption. constructor.
Qed.

Lemma merge_of_snoc_right {A : Type} (a : A) (l1 l2 l : list A) :
  merge_of l1 l2 l -> merge_of l1 (l2 ++ [a]) (l ++ [a]).
Proof.
  induction 1; simpl; constructor; try assumption. constructor.
Qed.

Lemma place_item_id (c c' : Container.t) (item item' : Item.t)
    (pos : Z * Z * Z) (ok : bool) :
  Container.place_item c item pos = (ok, c', item') ->
  Item.item_id item' = Item.item_id item.
Proof.
  unfold Container.place_item. destruct (negb _).
  - intros [= _ _ <-]. reflexivity.
  - destruct pos as [[x y] z].
    destruct (Container.item_cells c item) as [[iw id] ih].
    intros [= _ _ <-]. reflexivity.
Qed.

(** The loop takes the items one by one in list order; every item ends in
    exactly one of the two result lists. *)
Lemma pack_fold_order (enforce : bool) (l : list Item.t)
    (st : ThreeDimensionalPacking.LoopState) :
  merge_of (map pl_item_id (ThreeDimensionalPacking.ls_successful st))
    (map un_item_id (ThreeDimensionalPacking.ls_unplaced st))
    (map Item.item_id (ThreeDimensionalPacking.ls_items st)) ->
  let st' := fold_left (ThreeDimensionalPacking.pack_step enforce) l st in
  map Item.item_id (ThreeDimensionalPacking.ls_items st')
  = map Item.item_id (ThreeDimensionalPacking.ls_items st)
    ++ map Item.item_id l
  /\ merge_of (map pl_item_id (ThreeDimensionalPacking.ls_successful st'))
       (map un_item_id (ThreeDimensionalPacking.ls_unplaced st'))
       (map Item.item_id (ThreeDimensionalPacking.ls_items st')).
Proof.
  revert st. induction l as [|item l IH]; intros st Hm; cbn [fold_left].
  - cbn. rewrite app_nil_r. split; [reflexivity|exact Hm].
  - specialize (IH (ThreeDimensionalPacking.pack_step enforce st item)).
    cbv zeta in IH |- *.
    destruct (pack_step_outcome enforce st item)
      as [i c p Hp Hi Hw Hmin|i c c' x y z item' Hpe Hi Hz Hl Hf Hpl|reason Hpe];
      cbn [ThreeDimensionalPacking.ls_items ThreeDimensionalPacking.ls_successful
           ThreeDimensionalPacking.ls_unplaced] in IH |- *;
      rewrite !map_app in IH; cbn [map] in IH.
    + destruct IH as [IH1 IH2]; [apply merge_of_snoc_left, Hm|].
      split; [|exact IH2].
      rewrite IH1, <- app_assoc. reflexivity.
    + rewrite (place_item_id _ _ _ _ _ _ Hpl) in IH.
      destruct IH as [IH1 IH2]; [apply merge_of_snoc_left, Hm|].
      split; [|exact IH2].
      rewrite IH1, <- app_assoc. reflexivity.
    + destruct IH as [IH1 IH2]; [apply merge_of_snoc_right, Hm|].
      split; [|exact IH2].
      rewrite IH1, <- app_assoc. reflexivity.
Qed.

Lemma StronglySorted_weaken {A : Type} (R R' : A -> A -> Prop) (l : list A) :
  (forall a b, R a b -> R' a b) -> StronglySorted R l -> StronglySorted R' l.
Proof.
  intros HR. induction 1 as [|a l Hs IH Hall]; constructor; [exact IH|].
  eapply Forall_impl; [exact Hall|]. intros b. apply HR.
Qed.

Lemma init_items_sorted (cs : list Container.t) (its : list Item.t)
    (enforce : bool) :
  StronglySorted attempt_order
    (ThreeDimensionalPacking.items
       (ThreeDimensionalPacking.init cs its enforce)).
Proof.
  apply (StronglySorted_weaken
           (not_after ThreeDimensionalPacking.key_lt
              ThreeDimensionalPacking.item_key)).
  - intros a b. apply not_after_attempt_order.
  - apply py_sorted_sorted.
    + apply key_lt_irrefl.
    + apply key_lt_trans.
    + apply key_lt_total.
Qed.

(** C8.  [__init__] sorts the items before anything is placed (the
    containers are still the ones supplied): the sorted list is a
    permutation of the input in which every item comes before every item of
    lower priority and, among equal priorities, before every item with a
    later expiry key; items equal on both keep their input order.
    [pack_items] takes the items in exactly that order: the items it has
    processed are the sorted items, and the two result lists are an
    order-preserving split of the sorted sequence of item ids.  The
    computation is a function of its input: equal inputs give equal
    results. *)
Theorem attempts_in_priority_order (cs : list Container.t)
    (its : list Item.t) (enforce : bool) :
  let self := ThreeDimensionalPacking.init cs its enforce in
  let after := ThreeDimensionalPacking.pack_items self in
  ThreeDimensionalPacking.containers self = cs
  /\ Permutation (ThreeDimensionalPacking.items self) its
  /\ StronglySorted attempt_order (ThreeDimensionalPacking.items self)
  /\ (forall n e,
        List.filter (has_key n e) (ThreeDimensionalPacking.items self)
        = List.filter (has_key n e) its)
  /\ map Item.item_id (ThreeDimensionalPacking.items (snd after))
     = map Item.item_id (ThreeDimensionalPacking.items self)
  /\ merge_of (map pl_item_id (successful_placements (fst after)))
       (map un_item_id (unplaced_items (fst after)))
       (map Item.item_id (ThreeDimensionalPacking.items self))
  /\ (forall cs' its' enforce',
        cs' = cs -> its' = its -> enforce' = enforce ->
        ThreeDimensionalPacking.pack_items
          (ThreeDimensionalPacking.init cs' its' enforce')
        = after).
Proof.
  cbv zeta.
  split; [reflexivity|].
  split; [apply py_sorted_perm|].
  split; [apply init_items_sorted|].
  split.
  { intros n e. apply py_sorted_stable. apply has_key_tied. }
  pose proof (pack_fold_order enforce
                (ThreeDimensionalPacking.items
                   (ThreeDimensionalPacking.init cs its enforce))
                (ThreeDimensionalPacking.mkLoop cs [] [] [])
                merge_nil) as [Hids Hmerge].
  cbn [ThreeDimensionalPacking.ls_items map app] in Hids.
  split; [exact Hids|].
  split.
  - cbn [ThreeDimensionalPacking.ls_items] in Hmerge.
    rewrite Hids in Hmerge. exact Hmerge.
  - intros cs' its' enforce' -> -> ->. reflexivity.
Qed.

(** ** The first example scenario *)

(** In an empty grid the validity check is the bounds check. *)
Lemma is_position_valid_fresh (c : Container.t) (item : Item.t) (x y z : Z) :
  (forall i j k, NdArray.data (Container.space c) i j k = false) ->
  Container.is_position_valid c item (x, y, z)
  = negb ((x <? 0) || (y <? 0) || (z <? 0)
          || Qgt_bool (inject_Z x
                       + Item.width item * inject_Z (Container.resolution c))
               (Container.width c * inject_Z (Container.resolution c))
          || Qgt_bool (inject_Z y
                       + Item.depth item * inject_Z (Container.resolution c))
               (Container.depth c * inject_Z (Container.resolution c))
          || Qgt_bool (inject_Z z
                       + Item.height item * inject_Z (Container.resolution c))
               (Container.height c * inject_Z (Container.resolution c))).
Proof.
  intros Hempty. unfold Container.is_position_valid.
  destruct (_ || _); [reflexivity|].
  destruct (Container.item_cells c item) as [[iw id] ih].
  assert (Hany : NdArray.any_slice (Container.space c)
                   x (x + iw) y (y + id) z (z + ih) = false).
  { apply any_slice_false. intros i j k _ _ _. apply Hempty. }
  rewrite Hany. reflexivity.
Qed.

Section Scenario.
Variables (cid iid name : string) (mass : Q) (expiry : string).

Let c := scenario_container cid.
Let item := scenario_item iid name mass expiry.

Lemma scenario_valid :
  Container.is_position_valid c item (0, 500, 0) = true.
Proof.
  rewrite is_position_valid_fresh; [|reflexivity].
  vm_compute. reflexivity.
Qed.

Lemma scenario_cells :
  width_cells c = 1000 /\ depth_cells c = 1000 /\ height_cells c = 1000
  /\ item_width c item = 500 /\ item_depth c item = 500
  /\ item_height c item = 500.
Proof. vm_compute. repeat split. Qed.

Lemma scenario_find :
  ThreeDimensionalPacking.find_bottom_left_back_position c item
  = Some (0, 500, 0).
Proof.
  unfold ThreeDimensionalPacking.find_bottom_left_back_position.
  destruct scenario_cells as (Hw & Hd & Hh & Hiw & Hid & Hih).
  assert (Hcorner : floor_corner c item 0 500).
  { unfold floor_corner. rewrite Hw, Hd, Hiw, Hid. lia. }
  destruct (ThreeDimensionalPacking.floor_pass c item) as [[[x y] z]|] eqn:Hp.
  - destruct (floor_pass_Some c item x y z Hp) as (-> & Hxy & _ & Hmin).
    destruct (Hmin 0 500 Hcorner scenario_valid) as [[= <- <-]|Hbefore];
      [reflexivity|].
    exfalso. unfold floor_corner in Hxy. rewrite Hw, Hd, Hiw, Hid in Hxy.
    unfold column_before in Hbefore.
    change (Item.priority item) with 5 in Hbefore.
    change (5 <? 5) with false in Hbefore. cbv iota in Hbefore. lia.
  - rewrite floor_pass_None in Hp.
    pose proof scenario_valid as Hv.
    rewrite (Hp 0 500 Hcorner) in Hv. discriminate.
Qed.
End Scenario.

Section ScenarioRun.
Variables (cid iid name : string) (mass : Q) (expiry : string).
Variable enforce : bool.

Let c := scenario_container cid.
Let item := scenario_item iid name mass expiry.

Lemma scenario_try :
  exists c' item',
    Container.place_item c item (0, 500, 0) = (true, c', item')
    /\ ThreeDimensionalPacking.try_containers enforce item [0%nat] [c]
       = Some ([c'], item',
               mkPlacement iid cid
                 (inject_Z 0 / inject_Z 10, inject_Z 500 / inject_Z 10,
                  inject_Z 0 / inject_Z 10)%Q
                 (ThreeDimensionalPacking.dimensions_of item)).
Proof.
  pose proof (place_item_valid c item 0 500 0
                (scenario_valid cid iid name mass expiry)) as Hplace.
  eexists _, _. split; [exact Hplace|].
  cbn [ThreeDimensionalPacking.try_containers].
  change ([c] !! 0%nat) with (Some c).
  assert (Hz : ThreeDimensionalPacking.zone_matches c item = true)
    by reflexivity.
  assert (Hl : ThreeDimensionalPacking.too_large c item = false)
    by (vm_compute; reflexivity).
  cbv beta iota.
  rewrite Hz, Hl, andb_false_r.
  assert (Hfind : ThreeDimensionalPacking.find_bottom_left_back_position
                    c item = Some (0, 500, 0))
    by exact (scenario_find cid iid name mass expiry).
  rewrite Hfind, Hplace. reflexivity.
Qed.

Lemma scenario_loop :
  exists c' item',
    Container.place_item c item (0, 500, 0) = (true, c', item')
    /\ ThreeDimensionalPacking.pack_loop
         (scenario cid iid name mass expiry enforce)
       = ThreeDimensionalPacking.mkLoop [c'] [item']
           [mkPlacement iid cid
              (inject_Z 0 / inject_Z 10, inject_Z 500 / inject_Z 10,
               inject_Z 0 / inject_Z 10)%Q
              (ThreeDimensionalPacking.dimensions_of item)]
           [].
Proof.
  destruct scenario_try as (c' & item' & Hplace & Htry).
  exists c', item'. split; [exact Hplace|].
  unfold ThreeDimensionalPacking.pack_loop, scenario,
    ThreeDimensionalPacking.init.
  cbn [ThreeDimensionalPacking.items ThreeDimensionalPacking.containers
       ThreeDimensionalPacking.enforce_zones py_sorted insert_sorted fold_left].
  fold c item.
  unfold ThreeDimensionalPacking.pack_step.
  cbn [ThreeDimensionalPacking.ls_containers
       ThreeDimensionalPacking.ls_items ThreeDimensionalPacking.ls_successful
       ThreeDimensionalPacking.ls_unplaced].
  assert (Hpe : ThreeDimensionalPacking.place_existing [c] item = None)
    by reflexivity.
  rewrite Hpe.
  unfold ThreeDimensionalPacking.search_and_place.
  cbn [ThreeDimensionalPacking.ls_containers
       ThreeDimensionalPacking.ls_items ThreeDimensionalPacking.ls_successful
       ThreeDimensionalPacking.ls_unplaced].
  assert (Hm : ThreeDimensionalPacking.matching_containers enforce [c] item
               = [0%nat])
    by (destruct enforce; vm_compute; reflexivity).
  rewrite Hm, andb_false_r, Htry. reflexivity.
Qed.
End ScenarioRun.

Lemma scenario_results (cid iid name : string) (mass : Q) (expiry : string)
    (enforce : bool) :
  exists c' item',
    Container.place_item (scenario_container cid)
      (scenario_item iid name mass expiry) (0, 500, 0) = (true, c', item')
    /\ fst (ThreeDimensionalPacking.pack_items
              (scenario cid iid name mass expiry enforce))
       = mkResults
           [mkPlacement iid cid
              (inject_Z 0 / inject_Z 10, inject_Z 500 / inject_Z 10,
               inject_Z 0 / inject_Z 10)%Q
              (ThreeDimensionalPacking.dimensions_of
                 (scenario_item iid name mass expiry))]
           []
           [ThreeDimensionalPacking.stats_of c'].
Proof.
  destruct (scenario_loop cid iid name mass expiry enforce)
    as (c' & item' & Hplace & Hloop).
  exists c', item'. split; [exact Hplace|].
  unfold ThreeDimensionalPacking.pack_items. cbv zeta. rewrite Hloop.
  reflexivity.
Qed.

(** C2 (as amended).  For one container [100 x 100 x 100] in zone "A" and
    one item [50 x 50 x 50] of priority 5 preferring zone "A" without a
    position, [pack_items] records exactly one successful placement, of that
    item in that container, at the real-unit position [(0, 50, 0)]: priority
    5 is not above 5, so the floor pass starts from the back of the
    container.  Nothing is left unplaced. *)
Theorem scenario_placed_at_back (cid iid name : string) (mass : Q)
    (expiry : string) (enforce : bool) :
  placed_at
    (fst (ThreeDimensionalPacking.pack_items
            (scenario cid iid name mass expiry enforce)))
    iid cid (0, 50, 0)%Q
  /\ length (successful_placements
               (fst (ThreeDimensionalPacking.pack_items
                       (scenario cid iid name mass expiry enforce)))) = 1%nat
  /\ unplaced_items
       (fst (ThreeDimensionalPacking.pack_items
               (scenario cid iid name mass expiry enforce))) = [].
Proof.
  destruct (scenario_results cid iid name mass expiry enforce)
    as (c' & item' & _ & ->).
  cbn [successful_placements unplaced_items length].
  split; [|split; reflexivity].
  eexists. split; [left; reflexivity|].
  cbn [pl_item_id pl_container_id pl_position].
  split; [reflexivity|]. split; [reflexivity|].
  unfold position_eq. cbn [fst snd]. repeat split; reflexivity.
Qed.

(** The utilisation a container of volume 1,000,000 reports when its
    balance holds and it holds one item of volume 125,000. *)
Lemma utilization_one_eighth (c : Container.t) (a : Item.t) :
  volume_conserved c -> Container.items c = [a] ->
  (Container.volume c == 1000000)%Q -> (Item.volume a == 125000)%Q ->
  (st_volume_utilization (ThreeDimensionalPacking.stats_of c) == 25 # 2)%Q.
Proof.
  unfold volume_conserved. intros Hbal Hitems Hvol Ha.
  rewrite Hitems in Hbal. cbn [sum_volumes fold_right] in Hbal.
  assert (Hav : (Container.available_volume c == 875000)%Q).
  { rewrite Hvol, Ha in Hbal.
    rewrite <- (Qplus_inj_r _ _ (125000 + 0)), Hbal. reflexivity. }
  cbn [ThreeDimensionalPacking.stats_of st_volume_utilization].
  rewrite Hav, Hvol. reflexivity.
Qed.

(** C9.  After the loop [pack_items] emits one stats entry per container,
    in container order, carrying the container's id, zone, number of placed
    items, available volume and total volume, with
    [volume_utilization = (1 - available_volume / volume) * 100].  A
    container of volume 1,000,000 whose balance holds and which holds one
    item of volume 125,000 reports 12.5; the first example scenario is such
    a run. *)
Theorem container_stats_utilization :
  (forall self,
     Forall2 stats_report
       (ThreeDimensionalPacking.containers
          (snd (ThreeDimensionalPacking.pack_items self)))
       (container_stats (fst (ThreeDimensionalPacking.pack_items self))))
  /\ (forall c a,
        volume_conserved c -> Container.items c = [a] ->
        (Container.volume c == 1000000)%Q -> (Item.volume a == 125000)%Q ->
        (st_volume_utilization (ThreeDimensionalPacking.stats_of c)
         == 25 # 2)%Q)
  /\ (forall cid iid name mass expiry enforce,
        exists s,
          container_stats
            (fst (ThreeDimensionalPacking.pack_items
                    (scenario cid iid name mass expiry enforce))) = [s]
          /\ st_container_id s = cid
          /\ st_items_placed s = 1%nat
          /\ (st_total_volume s == 1000000)%Q
          /\ (st_available_volume s == 875000)%Q
          /\ (st_volume_utilization s == 25 # 2)%Q).
Proof.
  split; [|split; [exact utilization_one_eighth|]].
  - intros self. cbn [ThreeDimensionalPacking.pack_items fst snd].
    unfold ThreeDimensionalPacking.pack_items.
    cbn [fst snd container_stats ThreeDimensionalPacking.containers].
    induction (ThreeDimensionalPacking.ls_containers
                 (ThreeDimensionalPacking.pack_loop self)) as [|c l IH];
      cbn [map]; constructor; [|exact IH].
    unfold stats_report. cbn. repeat split.
  - intros cid iid name mass expiry enforce.
    destruct (scenario_results cid iid name mass expiry enforce)
      as (c' & item' & Hplace & ->).
    exists (ThreeDimensionalPacking.stats_of c').
    cbn [container_stats]. split; [reflexivity|].
    destruct (place_item_effect _ _ _ _ _ _ _
                (proj1 (container_init_fresh cid 100 100 100 "A"))
                (item_init_wf iid name 50 50 50 mass 5 expiry (Some "A"%string))
                Hplace)
      as (_ & _ & Hitems & Hav & (Hid & _ & _ & _ & Hvol & _)).
    cbn [ThreeDimensionalPacking.stats_of st_container_id st_items_placed
         st_total_volume st_available_volume st_volume_utilization].
    rewrite Hitems, Hav, Hvol, Hid.
    split; [reflexivity|]. split; [reflexivity|].
    repeat split; vm_compute; reflexivity.
Qed.

(** ** Examples: inputs with pre-assigned positions *)




(** C2 (counterexample).  In the first example scenario no success entry
    has position [(0, 0, 0)]: the recorded [y] is 50. *)
Lemma scenario_not_at_origin :
  ~ placed_at
      (fst (ThreeDimensionalPacking.pack_items
              (scenario "C1" "I1" "item" 1 "2025-01-01" false)))
      "I1" "C1" (0, 0, 0)%Q.
Proof.
  destruct (scenario_results "C1" "I1" "item" 1 "2025-01-01" false)
    as (c' & item' & _ & ->).
  intros (e & [<-|[]] & _ & _ & (_ & Hy & _)).
  cbn in Hy. discriminate.
Qed.

(** ** Examples: the theorems at concrete inputs *)






(** * Further properties of the container and the search *)

(** ** Placing shrinks the set of valid positions *)

Lemma place_item_data (c c' : Container.t) (item item' : Item.t)
    (x y z : Z) (i j k : Z) :
  Container.place_item c item (x, y, z) = (true, c', item') ->
  NdArray.data (Container.space c) i j k = true ->
  NdArray.data (Container.space c') i j k = true.
Proof.
  intros Hp Hd.
  pose proof (place_item_ok_valid _ _ _ _ _ Hp) as Hv.
  rewrite (place_item_valid _ _ _ _ _ Hv) in Hp.
  injection Hp as <- <-. cbn [Container.space].
  rewrite set_slice_data, Hd. destruct (_ && _ && _); reflexivity.
Qed.

Lemma is_position_valid_antitone (c c' : Container.t) (item item' : Item.t)
    (pos : Z * Z * Z) (item2 : Item.t) (pos2 : Z * Z * Z) :
  Container.place_item c item pos = (true, c', item') ->
  Container.is_position_valid c' item2 pos2 = true ->
  Container.is_position_valid c item2 pos2 = true.
Proof.
  intros Hp. destruct pos as [[x y] z].
  pose proof (place_item_frame _ _ _ _ _ _ Hp)
    as (_ & Hw & Hd & Hh & _ & _ & Hr & Hs).
  destruct pos2 as [[x2 y2] z2].
  unfold Container.is_position_valid, Container.item_cells.
  rewrite Hw, Hd, Hh, Hr.
  destruct (_ || _); [discriminate|].
  rewrite !negb_true_iff, !any_slice_false, Hs.
  intros Hfree i j k Hi Hj Hk.
  destruct (NdArray.data (Container.space c) i j k) eqn:E; [|reflexivity].
  rewrite <- (Hfree i j k Hi Hj Hk).
  symmetry. eapply place_item_data; eassumption.
Qed.

(** Once an item is placed, a corner is valid afterwards only if it was
    valid before and the candidate's cell range shares no cell with the
    placed item's; in particular the placed item's own corner is no longer
    valid. *)
Theorem place_item_excludes (c c' : Container.t) (item item' item2 : Item.t)
    (x y z x2 y2 z2 : Z) :
  container_wf c -> item_wf item -> item_wf item2 ->
  Container.place_item c item (x, y, z) = (true, c', item') ->
  (Container.is_position_valid c' item2 (x2, y2, z2) = true ->
   Container.is_position_valid c item2 (x2, y2, z2) = true
   /\ forall cell,
        ~ (in_box (x, y, z) (Container.item_cells c item) cell = true
           /\ in_box (x2, y2, z2) (Container.item_cells c item2) cell = true))
  /\ Container.is_position_valid c' item (x, y, z) = false.
Proof.
  intros Hc Hi Hi2 Hp.
  destruct (place_item_effect _ _ _ _ _ _ _ Hc Hi Hp)
    as (Hdata & _ & _ & _ & Hframe).
  pose proof (same_frame_wf _ _ Hframe Hc) as Hc'.
  assert (Hres : Container.resolution c' = Container.resolution c)
    by (destruct Hframe as (_ & _ & _ & _ & _ & _ & Hr & _); exact Hr).
  assert (Hblocked : forall it u v w i j k,
            item_wf it ->
            Container.is_position_valid c' it (u, v, w) = true ->
            in_box (x, y, z) (Container.item_cells c item) (i, j, k) = true ->
            in_box (u, v, w) (Container.item_cells c it) (i, j, k) = true ->
            False).
  { intros it u v w i j k Hit Hv Hb1 Hb2.
    pose proof (is_position_valid_true c' it u v w Hc' Hit Hv) as Hfree.
    unfold Container.item_cells in Hfree. rewrite Hres in Hfree.
    fold (Container.item_cells c it) in Hfree.
    destruct (Container.item_cells c it) as [[iw id] ih].
    destruct (NdArray.shape (Container.space c')) as [[n0 n1] n2].
    destruct Hfree as (_ & _ & _ & Hfree).
    specialize (Hfree i j k Hb2).
    change (NdArray.get (Container.space c') i j k = false) in Hfree.
    rewrite Hdata, Hb1 in Hfree. discriminate. }
  split.
  - intros Hv. split; [eapply is_position_valid_antitone; eassumption|].
    intros [[i j] k] [Hb1 Hb2]. exact (Hblocked item2 x2 y2 z2 i j k Hi2 Hv Hb1 Hb2).
  - destruct (Container.is_position_valid c' item (x, y, z)) eqn:Hv;
      [exfalso|reflexivity].
    pose proof (place_item_ok_valid _ _ _ _ _ Hp) as Hv0.
    pose proof (is_position_valid_true c item x y z Hc Hi Hv0) as Hcells.
    assert (Hself : in_box (x, y, z) (Container.item_cells c item) (x, y, z)
                    = true).
    { destruct (Container.item_cells c item) as [[iw id] ih].
      destruct (NdArray.shape (Container.space c)) as [[n0 n1] n2].
      destruct Hcells as (_ & (? & ? & ?) & _).
      unfold in_box.
      repeat (apply andb_true_iff; split);
        first [apply Z.leb_le; lia | apply Z.ltb_lt; lia]. }
    exact (Hblocked item x y z x y z Hi Hv Hself Hself).
Qed.

(** ** The dimension pre-check and the search *)



(** ** The first item in an empty container *)

Lemma py_int_nonneg (q : Q) : (0 <= q)%Q -> 0 <= py_int q.
Proof.
  intros H. rewrite <- (py_int_inject_Z 0).
  apply py_int_mono; [apply Qle_refl|exact H].
Qed.

Lemma le_py_int (n : Z) (q : Q) :
  0 <= n -> (inject_Z n <= q)%Q -> n <= py_int q.
Proof.
  intros Hn H. rewrite <- (py_int_inject_Z n).
  apply py_int_mono; [|exact H].
  change 0%Q with (inject_Z 0). rewrite <- Zle_Qle. exact Hn.
Qed.

Lemma first_corner_valid (c : Container.t) (item : Item.t) :
  container_fresh c -> item_wf item ->
  ThreeDimensionalPacking.too_large c item = false ->
  Container.is_position_valid c item (first_corner c item) = true
  /\ floor_corner c item 0 (snd (fst (first_corner c item))).
Proof.
  intros ((Hres & Hw & Hd & Hh & Hshape) & _ & _ & Hempty) (Hiw & Hid & Hih) Hl.
  unfold ThreeDimensionalPacking.too_large in Hl.
  repeat (apply orb_false_iff in Hl; destruct Hl as [Hl ?]).
  repeat match goal with
         | H : Qgt_bool _ _ = false |- _ => apply Qgt_bool_false in H
         end.
  unfold first_corner, floor_corner, width_cells, depth_cells, item_width,
    item_depth. cbn [fst snd]. rewrite Hres.
  set (y0 := if 5 <? Item.priority item then 0
             else py_int (Container.depth c * inject_Z 10
                          - Item.depth item * inject_Z 10)).
  assert (Hy0 : 0 <= y0
                /\ (inject_Z y0 + Item.depth item * inject_Z 10
                    <= Container.depth c * inject_Z 10)%Q).
  { unfold y0. destruct (5 <? Item.priority item).
    - split; [lia|]. change (inject_Z 0) with 0%Q. change (inject_Z 10) with 10%Q.
      lra.
    - assert (Hq : (0 <= Container.depth c * inject_Z 10
                         - Item.depth item * inject_Z 10)%Q)
        by (change (inject_Z 10) with 10%Q; lra).
      split; [apply py_int_nonneg, Hq|].
      pose proof (py_int_le _ Hq). lra. }
  destruct Hy0 as [Hy0 Hy0'].
  split.
  - rewrite is_position_valid_fresh by exact Hempty. rewrite Hres.
    apply negb_true_iff.
    repeat (apply orb_false_iff; split);
      try (apply Z.ltb_ge; lia); apply Qgt_bool_false.
    + change (inject_Z 0) with 0%Q. change (inject_Z 10) with 10%Q. lra.
    + exact Hy0'.
    + change (inject_Z 0) with 0%Q. change (inject_Z 10) with 10%Q. lra.
  - split.
    + pose proof (py_int_mono (Item.width item * inject_Z 10)
                    (Container.width c * inject_Z 10)) as Hm.
      split; [lia|]. cut (py_int (Item.width item * inject_Z 10)
                          <= py_int (Container.width c * inject_Z 10)); [lia|].
      apply Hm; change (inject_Z 10) with 10%Q; lra.
    + split; [exact Hy0|].
      cut (y0 + py_int (Item.depth item * inject_Z 10)
           <= py_int (Container.depth c * inject_Z 10)); [lia|].
      apply cells_fit; [exact Hy0| |exact Hy0'].
      change (inject_Z 10) with 10%Q. lra.
Qed.

Lemma find_in_fresh (c : Container.t) (item : Item.t) :
  container_fresh c -> item_wf item ->
  ThreeDimensionalPacking.too_large c item = false ->
  ThreeDimensionalPacking.find_bottom_left_back_position c item
  = Some (first_corner c item).
Proof.
  intros Hc Hi Hl.
  destruct (first_corner_valid c item Hc Hi Hl) as [Hv Hcorner].
  unfold ThreeDimensionalPacking.find_bottom_left_back_position.
  destruct (ThreeDimensionalPacking.floor_pass c item) as [[[x y] z]|] eqn:Hp.
  - destruct (floor_pass_Some c item x y z Hp) as (-> & Hxy & Hvxy & Hmin).
    unfold first_corner in *. cbn [fst snd] in Hcorner.
    destruct (Hmin 0 _ Hcorner Hv) as [[= <- <-]|Hbefore]; [reflexivity|].
    exfalso. destruct Hxy as [Hx Hy].
    unfold column_before in Hbefore.
    destruct Hbefore as [Hlt|[-> Hlt]]; [lia|].
    destruct (5 <? Item.priority item); [lia|].
    destruct Hc as ((Hres & _) & _ & _ & Hempty).
    rewrite is_position_valid_fresh in Hvxy by exact Hempty.
    apply negb_true_iff in Hvxy.
    repeat (apply orb_false_iff in Hvxy; destruct Hvxy as [Hvxy ?]).
    match goal with
    | H : Qgt_bool (inject_Z y + _) _ = false |- _ =>
        apply Qgt_bool_false in H;
        assert (Hle : y <= py_int (Container.depth c
                                   * inject_Z (Container.resolution c)
                                   - Item.depth item
                                     * inject_Z (Container.resolution c)))
          by (apply le_py_int; [lia|lra])
    end.
    lia.
  - rewrite floor_pass_None in Hp.
    unfold first_corner in Hv, Hcorner. cbn [fst snd] in Hcorner.
    rewrite (Hp 0 _ Hcorner) in Hv. discriminate.
Qed.



Lemma place_item_excludes_witness :
  container_wf (unit_container "C1" "A")
  /\ item_wf (unit_item "I1" "A")
  /\ item_wf (unit_item "I2" "A")
  /\ Container.place_item (unit_container "C1" "A") (unit_item "I1" "A")
       (0, 0, 0)
     = (true,
        snd (fst (Container.place_item (unit_container "C1" "A")
                    (unit_item "I1" "A") (0, 0, 0))),
        snd (Container.place_item (unit_container "C1" "A")
               (unit_item "I1" "A") (0, 0, 0)))
  /\ Container.is_position_valid
       (snd (fst (Container.place_item (unit_container "C1" "A")
                    (unit_item "I1" "A") (0, 0, 0))))
       (unit_item "I1" "A") (0, 0, 0) = false.
Proof.
  assert (H1 : container_wf (unit_container "C1" "A"))
    by apply container_init_fresh.
  assert (H2 : item_wf (unit_item "I1" "A")) by apply item_init_wf.
  assert (H3 : item_wf (unit_item "I2" "A")) by apply item_init_wf.
  assert (H4 : Container.place_item (unit_container "C1" "A")
                 (unit_item "I1" "A") (0, 0, 0)
               = (true,
                  snd (fst (Container.place_item (unit_container "C1" "A")
                              (unit_item "I1" "A") (0, 0, 0))),
                  snd (Container.place_item (unit_container "C1" "A")
                         (unit_item "I1" "A") (0, 0, 0))))
    by (vm_compute; reflexivity).
  exact (conj H1 (conj H2 (conj H3 (conj H4
           (proj2 (place_item_excludes _ _ _ _ (unit_item "I2" "A")
                     0 0 0 0 0 0 H1 H2 H3 H4)))))).
Defined.


(** ** What every run leaves in the containers *)






(** ** Grid marks and listed items *)





(** ** Bounds on the statistics *)

Lemma product_ge_1 (a b c : Q) :
  (1 <= a)%Q -> (1 <= b)%Q -> (1 <= c)%Q -> (1 <= a * b * c)%Q.
Proof.
  intros Ha Hb Hc.
  assert (Hab : (1 <= a * b)%Q).
  { rewrite <- (Qmult_1_l 1). apply Qmult_le_compat_nonneg; split; lra. }
  rewrite <- (Qmult_1_l 1). apply Qmult_le_compat_nonneg; split; lra.
Qed.

Lemma item_init_built id name w d h m p e z :
  item_built (Item.init id name w d h m p e z).
Proof. split; [apply item_init_wf|]. cbn. reflexivity. Qed.

Lemma container_init_built id w d h z :
  container_built (Container.init id w d h z).
Proof. split; [apply container_init_fresh|]. cbn. reflexivity. Qed.

Lemma place_item_available (c c' : Container.t) (item item' : Item.t)
    (pos : Z * Z * Z) :
  Container.place_item c item pos = (true, c', item') ->
  Container.available_volume c'
  = (Container.available_volume c - Item.volume item)%Q
  /\ Container.volume c' = Container.volume c.
Proof.
  intros Hp. destruct pos as [[x y] z].
  pose proof (place_item_ok_valid _ _ _ _ _ Hp) as Hv.
  rewrite (place_item_valid _ _ _ _ _ Hv) in Hp.
  injection Hp as <- _. split; reflexivity.
Qed.

(** For containers and items as the constructors build them, every stats
    entry has a total volume of at least 1 (the utilisation never divides by
    zero), an available volume that does not exceed it, and a utilisation
    that is not negative. *)
Theorem stats_bounds (cs : list Container.t) (its : list Item.t)
    (enforce : bool) :
  Forall container_built cs -> Forall item_built its ->
  Forall (fun s =>
            (1 <= st_total_volume s)%Q
            /\ (st_available_volume s <= st_total_volume s)%Q
            /\ (0 <= st_volume_utilization s)%Q)
    (container_stats
       (fst (ThreeDimensionalPacking.pack_items
               (ThreeDimensionalPacking.init cs its enforce)))).
Proof.
  intros Hcs Hits.
  assert (Hinv :
    Forall (fun c => (1 <= Container.volume c)%Q
                     /\ (Container.available_volume c <= Container.volume c)%Q)
      (ThreeDimensionalPacking.ls_containers
         (ThreeDimensionalPacking.pack_loop
            (ThreeDimensionalPacking.init cs its enforce)))).
  { apply (pack_loop_invariant
             (fun st =>
                Forall (fun c =>
                          (1 <= Container.volume c)%Q
                          /\ (Container.available_volume c
                              <= Container.volume c)%Q)
                  (ThreeDimensionalPacking.ls_containers st))).
    - cbn. eapply Forall_impl; [exact Hcs|].
      intros c (((_ & Hw & Hd & Hh & _) & _ & Hav & _) & Hvol).
      split; [rewrite Hvol; apply product_ge_1; assumption|].
      rewrite Hav. apply Qle_refl.
    - intros st item st' Hin Hall Hstep.
      apply init_items_In in Hin.
      destruct Hstep as [i c p Hp Hi Hw Hmin
                        |i c c' x y z item' Hpe Hi Hz Hl Hf Hpl|]; cbn;
        [| |exact Hall].
      + apply Forall_insert; [exact Hall|].
        rewrite Forall_lookup in Hall. exact (Hall i c Hi).
      + apply Forall_insert; [exact Hall|].
        rewrite Forall_lookup in Hall. destruct (Hall i c Hi) as [Hv Ha].
        destruct (place_item_available _ _ _ _ _ Hpl) as [-> ->].
        split; [exact Hv|].
        rewrite Forall_forall in Hits.
        destruct (Hits item (proj2 (list_elem_of_In _ _) Hin))
          as ((Hiw & Hid & Hih) & Hvol).
        pose proof (product_ge_1 _ _ _ Hiw Hid Hih) as Hge.
        rewrite <- Hvol in Hge. lra. }
  unfold ThreeDimensionalPacking.pack_items. cbn [fst container_stats].
  induction Hinv as [|c l [Hv Ha] _ IH]; cbn [map]; constructor; [|exact IH].
  cbn [ThreeDimensionalPacking.stats_of st_total_volume st_available_volume
       st_volume_utilization].
  split; [exact Hv|]. split; [exact Ha|].
  assert (Hdiv : (Container.available_volume c / Container.volume c <= 1)%Q).
  { apply Qle_shift_div_r; lra. }
  lra.
Qed.

Lemma stats_bounds_witness :
  Forall container_built [unit_container "C1" "A"]
  /\ Forall item_built [unit_item "I1" "A"; unit_item "I2" "A"]
  /\ Forall (fun s =>
               (1 <= st_total_volume s)%Q
               /\ (st_available_volume s <= st_total_volume s)%Q
               /\ (0 <= st_volume_utilization s)%Q)
       (container_stats
          (fst (ThreeDimensionalPacking.pack_items
                  (ThreeDimensionalPacking.init
                     [unit_container "C1" "A"]
                     [unit_item "I1" "A"; unit_item "I2" "A"] true)))).
Proof.
  assert (H1 : Forall container_built [unit_container "C1" "A"])
    by (repeat constructor; apply container_init_built).
  assert (H2 : Forall item_built [unit_item "I1" "A"; unit_item "I2" "A"])
    by (repeat constructor; apply item_init_built).
  exact (conj H1 (conj H2 (stats_bounds _ _ true H1 H2))).
Defined.

(** ** Items that cannot be placed *)

Lemma fold_keeps_unplaced (enforce : bool) (l : list Item.t)
    (st : ThreeDimensionalPacking.LoopState) (u : Unplaced) :
  In u (ThreeDimensionalPacking.ls_unplaced st) ->
  In u (ThreeDimensionalPacking.ls_unplaced
          (fold_left (ThreeDimensionalPacking.pack_step enforce) l st)).
Proof.
  revert st. induction l as [|item l IH]; intros st Hu; cbn [fold_left];
    [exact Hu|].
  apply IH.
  destruct (pack_step_outcome enforce st item); cbn; try exact Hu.
  apply in_or_app. left. exact Hu.
Qed.

(** Every item of the input has its iteration, in a state whose containers
    are the input's containers up to what placing changes; what that
    iteration records stays in the result. *)
Lemma run_reaches (cs : list Container.t) (its : list Item.t)
    (enforce : bool) (item : Item.t) :
  In item its ->
  exists st,
    Forall2 same_frame cs (ThreeDimensionalPacking.ls_containers st)
    /\ (forall u,
          In u (ThreeDimensionalPacking.ls_unplaced
                  (ThreeDimensionalPacking.pack_step enforce st item)) ->
          In u (unplaced_items
                  (fst (ThreeDimensionalPacking.pack_items
                          (ThreeDimensionalPacking.init cs its enforce)))))
    /\ (forall e,
          In e (ThreeDimensionalPacking.ls_successful
                  (ThreeDimensionalPacking.pack_step enforce st item)) ->
          In e (successful_placements
                  (fst (ThreeDimensionalPacking.pack_items
                          (ThreeDimensionalPacking.init cs its enforce))))).
Proof.
  intros Hin.
  apply (init_items_In cs its enforce) in Hin.
  apply in_split in Hin. destruct Hin as (l1 & l2 & Hl).
  unfold ThreeDimensionalPacking.pack_items. cbv zeta.
  cbn [fst unplaced_items successful_placements].
  unfold ThreeDimensionalPacking.pack_loop.
  rewrite Hl, fold_left_app. cbn [fold_left].
  cbn [ThreeDimensionalPacking.enforce_zones ThreeDimensionalPacking.containers
       ThreeDimensionalPacking.init].
  set (st0 := ThreeDimensionalPacking.mkLoop cs [] [] []).
  destruct (fold_keeps enforce cs l1 st0 (Forall2_same_frame_refl cs))
    as (HF1 & _ & _).
  exists (fold_left (ThreeDimensionalPacking.pack_step enforce) l1 st0).
  split; [exact HF1|]. split.
  - intros u Hu. apply fold_keeps_unplaced, Hu.
  - intros e He.
    pose proof (step_frames enforce cs _ _ _ HF1
                  (pack_step_outcome enforce _ item)) as HF2.
    destruct (fold_keeps enforce cs l2 _ HF2) as (_ & Hs & _).
    apply Hs, He.
Qed.

Lemma filter_none {A : Type} (f : A -> bool) (l : list A) :
  (forall a, In a l -> f a = false) -> List.filter f l = [].
Proof.
  induction l as [|a l IH]; intros H; [reflexivity|].
  cbn. rewrite (H a (or_introl eq_refl)). apply IH.
  intros b Hb. apply H. right. exact Hb.
Qed.

Lemma place_existing_unpositioned (cs : list Container.t) (item : Item.t) :
  Item.position item = None ->
  ThreeDimensionalPacking.place_existing cs item = None.
Proof.
  intros Hp. unfold ThreeDimensionalPacking.place_existing. rewrite Hp.
  reflexivity.
Qed.

(** With [enforce_zones] on, an item without a position whose preferred
    zone is the zone of no container is reported unplaced with the reason
    "No containers available with matching zone <zone>". *)
Theorem no_matching_zone_unplaced (cs : list Container.t) (its : list Item.t)
    (item : Item.t) :
  In item its ->
  Item.position item = None ->
  (forall c, In c cs -> ThreeDimensionalPacking.zone_matches c item = false) ->
  In (mkUnplaced (Item.item_id item)
        ("No containers available with matching zone "
         ++ ThreeDimensionalPacking.zone_repr (Item.preferred_zone item)))
     (unplaced_items
        (fst (ThreeDimensionalPacking.pack_items
                (ThreeDimensionalPacking.init cs its true)))).
Proof.
  intros Hin Hp Hzone.
  destruct (run_reaches cs its true item Hin) as (st & HF & Hu & _).
  apply Hu. unfold ThreeDimensionalPacking.pack_step.
  rewrite (place_existing_unpositioned _ _ Hp).
  unfold ThreeDimensionalPacking.search_and_place.
  assert (Hm : ThreeDimensionalPacking.matching_containers true
                 (ThreeDimensionalPacking.ls_containers st) item = []).
  { unfold ThreeDimensionalPacking.matching_containers.
    apply filter_none. intros i _.
    destruct (ThreeDimensionalPacking.ls_containers st !! i) as [c|] eqn:Hi;
      [|reflexivity].
    destruct (Forall2_lookup_r _ _ _ _ _ HF Hi) as (c0 & Hc0 & Hf0).
    rewrite (zone_matches_frame c0 c item Hf0). apply Hzone.
    apply list_elem_of_In, list_elem_of_lookup. exists i. exact Hc0. }
  rewrite Hm. cbn. apply in_or_app. right. left. reflexivity.
Qed.

Lemma no_matching_zone_unplaced_witness :
  In (unit_item "I1" "A") [unit_item "I1" "A"]
  /\ Item.position (unit_item "I1" "A") = None
  /\ (forall c, In c [unit_container "C1" "B"] ->
        ThreeDimensionalPacking.zone_matches c (unit_item "I1" "A") = false)
  /\ In (mkUnplaced "I1" "No containers available with matching zone A")
       (unplaced_items
          (fst (ThreeDimensionalPacking.pack_items
                  (ThreeDimensionalPacking.init [unit_container "C1" "B"]
                     [unit_item "I1" "A"] true)))).
Proof.
  assert (H1 : In (unit_item "I1" "A") [unit_item "I1" "A"])
    by (left; reflexivity).
  assert (H2 : Item.position (unit_item "I1" "A") = None) by reflexivity.
  assert (H3 : forall c, In c [unit_container "C1" "B"] ->
                 ThreeDimensionalPacking.zone_matches c (unit_item "I1" "A")
                 = false)
    by (intros c [<-|[]]; reflexivity).
  exact (conj H1 (conj H2 (conj H3
           (no_matching_zone_unplaced _ _ _ H1 H2 H3)))).
Defined.

Lemma too_large_frame (c c' : Container.t) (item : Item.t) :
  same_frame c c' ->
  ThreeDimensionalPacking.too_large c' item
  = ThreeDimensionalPacking.too_large c item.
Proof.
  intros (_ & Hw & Hd & Hh & _). unfold ThreeDimensionalPacking.too_large.
  rewrite Hw, Hd, Hh. reflexivity.
Qed.

Lemma try_containers_all_too_large (enforce : bool) (item : Item.t)
    (candidates : list nat) (cs : list Container.t) :
  (forall c, In c cs -> ThreeDimensionalPacking.too_large c item = true) ->
  ThreeDimensionalPacking.try_containers enforce item candidates cs = None.
Proof.
  intros Hl. induction candidates as [|i rest IH]; [reflexivity|].
  cbn [ThreeDimensionalPacking.try_containers].
  destruct (cs !! i) as [c|] eqn:Hi; [|exact IH].
  destruct (enforce && _); [exact IH|].
  rewrite (Hl c); [exact IH|].
  apply list_elem_of_In, list_elem_of_lookup. exists i. exact Hi.
Qed.

(** With zone enforcement off, an item without a position that exceeds
    every container in some dimension (in particular any item when there is
    no container at all) is reported unplaced with the reason
    "No suitable position found". *)
Theorem oversized_unplaced (cs : list Container.t) (its : list Item.t)
    (item : Item.t) :
  In item its ->
  Item.position item = None ->
  (forall c, In c cs -> ThreeDimensionalPacking.too_large c item = true) ->
  In (mkUnplaced (Item.item_id item) "No suitable position found")
     (unplaced_items
        (fst (ThreeDimensionalPacking.pack_items
                (ThreeDimensionalPacking.init cs its false)))).
Proof.
  intros Hin Hp Hl.
  destruct (run_reaches cs its false item Hin) as (st & HF & Hu & _).
  apply Hu. unfold ThreeDimensionalPacking.pack_step.
  rewrite (place_existing_unpositioned _ _ Hp).
  unfold ThreeDimensionalPacking.search_and_place.
  cbn [andb].
  rewrite try_containers_all_too_large.
  - cbn. apply in_or_app. right. left. reflexivity.
  - intros c Hc. apply list_elem_of_In, list_elem_of_lookup in Hc.
    destruct Hc as [i Hi].
    destruct (Forall2_lookup_r _ _ _ _ _ HF Hi) as (c0 & Hc0 & Hf0).
    rewrite (too_large_frame c0 c item Hf0). apply Hl.
    apply list_elem_of_In, list_elem_of_lookup. exists i. exact Hc0.
Qed.

Lemma oversized_unplaced_witness :
  In (Item.init "I1" "item" 2 1 1 1 5 "2025-01-01" (Some "A"%string))
     [Item.init "I1" "item" 2 1 1 1 5 "2025-01-01" (Some "A"%string)]
  /\ Item.position
       (Item.init "I1" "item" 2 1 1 1 5 "2025-01-01" (Some "A"%string)) = None
  /\ (forall c, In c [unit_container "C1" "A"] ->
        ThreeDimensionalPacking.too_large c
          (Item.init "I1" "item" 2 1 1 1 5 "2025-01-01" (Some "A"%string))
        = true)
  /\ In (mkUnplaced "I1" "No suitable position found")
       (unplaced_items
          (fst (ThreeDimensionalPacking.pack_items
                  (ThreeDimensionalPacking.init [unit_container "C1" "A"]
                     [Item.init "I1" "item" 2 1 1 1 5 "2025-01-01"
                        (Some "A"%string)] false)))).
Proof.
  assert (H1 : In (Item.init "I1" "item" 2 1 1 1 5 "2025-01-01"
                     (Some "A"%string))
                 [Item.init "I1" "item" 2 1 1 1 5 "2025-01-01"
                    (Some "A"%string)])
    by (left; reflexivity).
  assert (H2 : Item.position
                 (Item.init "I1" "item" 2 1 1 1 5 "2025-01-01"
                    (Some "A"%string)) = None) by reflexivity.
  assert (H3 : forall c, In c [unit_container "C1" "A"] ->
                 ThreeDimensionalPacking.too_large c
                   (Item.init "I1" "item" 2 1 1 1 5 "2025-01-01"
                      (Some "A"%string)) = true)
    by (intros c [<-|[]]; reflexivity).
  exact (conj H1 (conj H2 (conj H3 (oversized_unplaced _ _ _ H1 H2 H3)))).
Defined.

(** ** A lone item that fits is placed *)

Lemma matching_containers_In (enforce : bool) (cs : list Container.t)
    (item : Item.t) (i : nat) (c : Container.t) :
  cs !! i = Some c ->
  (enforce = true -> ThreeDimensionalPacking.zone_matches c item = true) ->
  In i (ThreeDimensionalPacking.matching_containers enforce cs item).
Proof.
  intros Hi Hz. unfold ThreeDimensionalPacking.matching_containers.
  assert (Hseq : In i (seq 0 (length cs))).
  { apply in_seq. pose proof (lookup_lt_Some _ _ _ Hi). lia. }
  destruct enforce.
  - apply filter_In. split; [exact Hseq|]. rewrite Hi. apply Hz. reflexivity.
  - apply py_sorted_In. exact Hseq.
Qed.

Lemma try_containers_fresh (enforce : bool) (item : Item.t)
    (candidates : list nat) (cs : list Container.t) (i : nat)
    (c : Container.t) :
  Forall container_fresh cs -> item_wf item ->
  In i candidates -> cs !! i = Some c ->
  (enforce = true -> ThreeDimensionalPacking.zone_matches c item = true) ->
  ThreeDimensionalPacking.too_large c item = false ->
  exists r,
    ThreeDimensionalPacking.try_containers enforce item candidates cs = Some r.
Proof.
  intros Hfresh Hwf Hin Hi Hz Hl.
  induction candidates as [|j rest IH]; [destruct Hin|].
  cbn [ThreeDimensionalPacking.try_containers].
  destruct (cs !! j) as [cj|] eqn:Hj.
  - destruct (enforce && negb (ThreeDimensionalPacking.zone_matches cj item))
      eqn:Hzj.
    + destruct Hin as [->|Hin]; [|exact (IH Hin)].
      rewrite Hi in Hj. injection Hj as <-.
      apply andb_true_iff in Hzj. destruct Hzj as [-> Hn].
      rewrite (Hz eq_refl) in Hn. discriminate.
    + destruct (ThreeDimensionalPacking.too_large cj item) eqn:Hlj.
      * destruct Hin as [->|Hin]; [|exact (IH Hin)].
        rewrite Hi in Hj. injection Hj as <-. congruence.
      * assert (Hcj : container_fresh cj).
        { rewrite Forall_lookup in Hfresh. exact (Hfresh j cj Hj). }
        rewrite (find_in_fresh cj item Hcj Hwf Hlj).
        pose proof (proj1 (first_corner_valid cj item Hcj Hwf Hlj)) as Hv.
        destruct (first_corner cj item) as [[x y] z].
        rewrite (place_item_valid cj item x y z Hv).
        eexists. reflexivity.
  - destruct Hin as [->|Hin]; [congruence|exact (IH Hin)].
Qed.

(** A run on empty containers and a single item without a position: when
    some container is large enough for the item (and, with zone enforcement,
    has the item's preferred zone), the item is placed: the result has one
    success entry, for that item, and no unplaced entry. *)
Theorem lone_item_placed (cs : list Container.t) (item : Item.t)
    (enforce : bool) (i : nat) (c : Container.t) :
  Forall container_fresh cs -> item_wf item ->
  Item.position item = None ->
  cs !! i = Some c ->
  ThreeDimensionalPacking.too_large c item = false ->
  (enforce = true -> ThreeDimensionalPacking.zone_matches c item = true) ->
  unplaced_items
    (fst (ThreeDimensionalPacking.pack_items
            (ThreeDimensionalPacking.init cs [item] enforce))) = []
  /\ exists e,
       successful_placements
         (fst (ThreeDimensionalPacking.pack_items
                 (ThreeDimensionalPacking.init cs [item] enforce))) = [e]
       /\ pl_item_id e = Item.item_id item.
Proof.
  intros Hfresh Hwf Hp Hi Hl Hz.
  unfold ThreeDimensionalPacking.pack_items. cbv zeta.
  cbn [fst unplaced_items successful_placements].
  unfold ThreeDimensionalPacking.pack_loop.
  cbn [ThreeDimensionalPacking.init ThreeDimensionalPacking.items
       ThreeDimensionalPacking.containers ThreeDimensionalPacking.enforce_zones
       py_sorted insert_sorted fold_left].
  unfold ThreeDimensionalPacking.pack_step.
  cbn [ThreeDimensionalPacking.ls_containers].
  rewrite (place_existing_unpositioned _ _ Hp).
  unfold ThreeDimensionalPacking.search_and_place.
  cbn [ThreeDimensionalPacking.ls_containers ThreeDimensionalPacking.ls_items
       ThreeDimensionalPacking.ls_successful
       ThreeDimensionalPacking.ls_unplaced].
  pose proof (matching_containers_In enforce cs item i c Hi Hz) as Hin.
  set (m := ThreeDimensionalPacking.matching_containers enforce cs item) in *.
  destruct (try_containers_fresh enforce item m cs i c Hfresh Hwf Hin Hi Hz Hl)
    as [[[cs' item'] entry] Htry].
  rewrite Htry.
  assert (Hne : match m with [] => true | _ :: _ => false end = false)
    by (destruct m; [destruct Hin|reflexivity]).
  rewrite Hne, andb_false_r.
  cbn [ThreeDimensionalPacking.ls_successful
       ThreeDimensionalPacking.ls_unplaced app].
  split; [reflexivity|]. exists entry. split; [reflexivity|].
  destruct (try_containers_Some _ _ _ _ _ _ _ Htry)
    as (i0 & c0 & c0' & x & y & z & _ & _ & _ & _ & _ & _ & _ & He).
  rewrite He. reflexivity.
Qed.

Lemma lone_item_placed_witness :
  Forall container_fresh [unit_container "C1" "B"; unit_container "C2" "A"]
  /\ item_wf (unit_item "I1" "A")
  /\ Item.position (unit_item "I1" "A") = None
  /\ [unit_container "C1" "B"; unit_container "C2" "A"] !! 1%nat
     = Some (unit_container "C2" "A")
  /\ ThreeDimensionalPacking.too_large (unit_container "C2" "A")
       (unit_item "I1" "A") = false
  /\ (true = true ->
      ThreeDimensionalPacking.zone_matches (unit_container "C2" "A")
        (unit_item "I1" "A") = true)
  /\ unplaced_items
       (fst (ThreeDimensionalPacking.pack_items
               (ThreeDimensionalPacking.init
                  [unit_container "C1" "B"; unit_container "C2" "A"]
                  [unit_item "I1" "A"] true))) = [].
Proof.
  assert (H1 : Forall container_fresh
                 [unit_container "C1" "B"; unit_container "C2" "A"])
    by (repeat constructor; apply container_init_fresh).
  assert (H2 : item_wf (unit_item "I1" "A")) by apply item_init_wf.
  assert (H3 : Item.position (unit_item "I1" "A") = None) by reflexivity.
  assert (H4 : [unit_container "C1" "B"; unit_container "C2" "A"] !! 1%nat
               = Some (unit_container "C2" "A")) by reflexivity.
  assert (H5 : ThreeDimensionalPacking.too_large (unit_container "C2" "A")
                 (unit_item "I1" "A") = false) by reflexivity.
  assert (H6 : true = true ->
               ThreeDimensionalPacking.zone_matches (unit_container "C2" "A")
                 (unit_item "I1" "A") = true) by (intros _; reflexivity).
  exact (conj H1 (conj H2 (conj H3 (conj H4 (conj H5 (conj H6
           (proj1 (lone_item_placed _ _ true 1%nat _ H1 H2 H3 H4 H5 H6)))))))).
Defined.

(** * The colour of a priority *)

Lemma clamped_priority (p : Z) :
  let k := Z.max 1 (Z.min 10 p) in
  k = 1 \/ k = 2 \/ k = 3 \/ k = 4 \/ k = 5 \/ k = 6 \/ k = 7 \/ k = 8
  \/ k = 9 \/ k = 10.
Proof. cbv zeta. lia. Qed.

(** Whatever the priority (missing, below 1, above 10), the colour is a
    string [rgb(r, g, b)] whose three channels lie between 0 and 255. *)
Theorem color_is_rgb (priority : option Z) :
  exists r g b,
    ThreeDimensionalPacking.get_color_for_priority priority
    = ("rgb(" ++ py_str_int r ++ ", " ++ py_str_int g ++ ", "
         ++ py_str_int b ++ ")")%string
    /\ 0 <= r <= 255 /\ 0 <= g <= 255 /\ 0 <= b <= 255.
Proof.
  unfold ThreeDimensionalPacking.get_color_for_priority. cbv zeta.
  pose proof (clamped_priority
                match priority with Some v => v | None => 5 end) as Hk.
  cbv zeta in Hk.
  set (k := Z.max 1 (Z.min 10 match priority with Some v => v | None => 5 end))
    in *.
  exists (if 4 <=? k then 220 else 40 + k * 20),
    (if 8 <=? k then 60 + (10 - k) * 15
     else if 4 <=? k then 150 + (7 - k) * 15 else 100 + k * 20),
    (if 8 <=? k then 40 + (10 - k) * 10 else if 4 <=? k then 30 else 220).
  destruct Hk as [->|[->|[->|[->|[->|[->|[->|[->|[->| ->]]]]]]]]];
    (split; [vm_compute; reflexivity|vm_compute; repeat split; discriminate]).
Qed.

(** Priorities from 1 to 10 get pairwise different colours; a missing
    priority is coloured like 5, anything below 1 like 1 and anything above
    10 like 10. *)
Theorem color_tells_priorities_apart :
  (forall p q,
     1 <= p <= 10 -> 1 <= q <= 10 ->
     ThreeDimensionalPacking.get_color_for_priority (Some p)
     = ThreeDimensionalPacking.get_color_for_priority (Some q) ->
     p = q)
  /\ ThreeDimensionalPacking.get_color_for_priority None
     = ThreeDimensionalPacking.get_color_for_priority (Some 5)
  /\ (forall p, p <= 1 ->
        ThreeDimensionalPacking.get_color_for_priority (Some p)
        = ThreeDimensionalPacking.get_color_for_priority (Some 1))
  /\ (forall p, 10 <= p ->
        ThreeDimensionalPacking.get_color_for_priority (Some p)
        = ThreeDimensionalPacking.get_color_for_priority (Some 10)).
Proof.
  split; [|split; [reflexivity|split]].
  - intros p q Hp Hq.
    assert (Ep : p = 1 \/ p = 2 \/ p = 3 \/ p = 4 \/ p = 5 \/ p = 6 \/ p = 7
                 \/ p = 8 \/ p = 9 \/ p = 10) by lia.
    assert (Eq : q = 1 \/ q = 2 \/ q = 3 \/ q = 4 \/ q = 5 \/ q = 6 \/ q = 7
                 \/ q = 8 \/ q = 9 \/ q = 10) by lia.
    destruct Ep as [->|[->|[->|[->|[->|[->|[->|[->|[->| ->]]]]]]]]];
      destruct Eq as [->|[->|[->|[->|[->|[->|[->|[->|[->| ->]]]]]]]]];
      vm_compute; try reflexivity; intros H; discriminate H.
  - intros p Hp. unfold ThreeDimensionalPacking.get_color_for_priority.
    cbv zeta. replace (Z.max 1 (Z.min 10 p)) with 1 by lia. reflexivity.
  - intros p Hp. unfold ThreeDimensionalPacking.get_color_for_priority.
    cbv zeta. replace (Z.max 1 (Z.min 10 p)) with 10 by lia. reflexivity.
Qed.

(** * The loaders *)










(** * The order of the candidate containers *)

(** Sorting by a key that is 0 or 1 is a stable partition. *)
Lemma insert_sorted_partition {A} (p : A -> bool) (a : A) (l1 l2 : list A) :
  Forall (fun b => p b = true) l1 ->
  Forall (fun b => p b = false) l2 ->
  insert_sorted Z.ltb (fun i => if p i then 0 else 1) false a (l1 ++ l2)
  = if p a then a :: l1 ++ l2 else l1 ++ a :: l2.
Proof.
  intros H1 H2. destruct (p a) eqn:Ha.
  - destruct (l1 ++ l2) as [|b l]; [reflexivity|].
    cbn [insert_sorted]. unfold precedes. rewrite Ha.
    destruct (p b); reflexivity.
  - induction H1 as [|b l1 Hb H1 IH]; cbn [app].
    + destruct H2 as [|b l2 Hb H2]; [reflexivity|].
      cbn [insert_sorted]. unfold precedes. rewrite Ha, Hb. reflexivity.
    + cbn [insert_sorted]. unfold precedes. rewrite Ha, Hb.
      cbn. rewrite <- IH. reflexivity.
Qed.

Lemma py_sorted_partition {A} (p : A -> bool) (l : list A) :
  py_sorted Z.ltb (fun i => if p i then 0 else 1) false l
  = List.filter p l ++ List.filter (fun i => negb (p i)) l.
Proof.
  induction l as [|a l IH]; [reflexivity|].
  cbn [py_sorted]. rewrite IH.
  rewrite insert_sorted_partition.
  - cbn [List.filter]. destruct (p a); reflexivity.
  - apply Forall_forall. intros b Hb.
    apply list_elem_of_In, filter_In in Hb. apply Hb.
  - apply Forall_forall. intros b Hb.
    apply list_elem_of_In, filter_In in Hb.
    destruct Hb as [_ Hb]. destruct (p b); [discriminate|reflexivity].
Qed.

Lemma filter_seq_before (p : nat -> bool) (n s : nat) (l1 l2 : list nat)
    (i j : nat) :
  List.filter p (seq s n) = l1 ++ i :: l2 ->
  (s <= j < i)%nat -> p j = true -> In j l1.
Proof.
  revert s l1. induction n as [|n IH]; intros s l1 Hf Hj Hp.
  - destruct l1; discriminate.
  - cbn [seq List.filter] in Hf. destruct (p s) eqn:Hs.
    + destruct l1 as [|a l1]; cbn [app] in Hf.
      * injection Hf as -> _. lia.
      * injection Hf as <- Hf.
        destruct (Nat.eq_dec j s) as [->|Hne]; [left; reflexivity|].
        right. apply (IH (S s) l1 Hf); [lia|exact Hp].
    + destruct (Nat.eq_dec j s) as [->|Hne]; [congruence|].
      apply (IH (S s) l1 Hf); [lia|exact Hp].
Qed.

Lemma try_containers_app (enforce : bool) (item : Item.t)
    (l1 l2 : list nat) (cs : list Container.t) :
  ThreeDimensionalPacking.try_containers enforce item (l1 ++ l2) cs
  = match ThreeDimensionalPacking.try_containers enforce item l1 cs with
    | Some r => Some r
    | None => ThreeDimensionalPacking.try_containers enforce item l2 cs
    end.
Proof.
  induction l1 as [|i l1 IH]; [reflexivity|].
  cbn [app ThreeDimensionalPacking.try_containers].
  destruct (cs !! i) as [c|]; [|exact IH].
  destruct (enforce && negb (ThreeDimensionalPacking.zone_matches c item));
    [exact IH|].
  destruct (ThreeDimensionalPacking.too_large c item); [exact IH|].
  destruct (ThreeDimensionalPacking.find_bottom_left_back_position c item)
    as [pos|]; [|exact IH].
  destruct (Container.place_item c item pos) as [[ok c'] item'].
  destruct ok; [|exact IH].
  destruct pos as [[x y] z]. reflexivity.
Qed.

Lemma try_containers_None (item : Item.t) (l : list nat)
    (cs : list Container.t) :
  ThreeDimensionalPacking.try_containers false item l cs = None ->
  forall i c, In i l -> cs !! i = Some c -> rejects c item.
Proof.
  induction l as [|i0 l IH]; intros Hn i c Hin Hc; [destruct Hin|].
  cbn [ThreeDimensionalPacking.try_containers] in Hn.
  destruct (Nat.eq_dec i0 i) as [->|Hne].
  - rewrite Hc in Hn. cbn [andb] in Hn. unfold rejects.
    destruct (ThreeDimensionalPacking.too_large c item); [left; reflexivity|].
    destruct (ThreeDimensionalPacking.find_bottom_left_back_position c item)
      as [[[x y] z]|] eqn:Hf; [|right; reflexivity].
    rewrite (place_item_valid _ _ _ _ _ (find_valid _ _ _ Hf)) in Hn.
    discriminate.
  - assert (Hl : ThreeDimensionalPacking.try_containers false item l cs = None).
    { destruct (cs !! i0) as [c0|]; [|exact Hn]. cbn [andb] in Hn.
      destruct (ThreeDimensionalPacking.too_large c0 item); [exact Hn|].
      destruct (ThreeDimensionalPacking.find_bottom_left_back_position c0 item)
        as [[[x y] z]|] eqn:Hf; [|exact Hn].
      rewrite (place_item_valid _ _ _ _ _ (find_valid _ _ _ Hf)) in Hn.
      discriminate. }
    destruct Hin as [?|Hin]; [contradiction|].
    exact (IH Hl i c Hin Hc).
Qed.

(** A successful candidate loop stops at the first candidate that takes the
    item. *)
Lemma try_containers_first (item : Item.t) (l : list nat)
    (cs cs' : list Container.t) (item' : Item.t) (entry : Placement) :
  ThreeDimensionalPacking.try_containers false item l cs
    = Some (cs', item', entry) ->
  exists l1 i l2 c c' x y z,
    l = l1 ++ i :: l2
    /\ ThreeDimensionalPacking.try_containers false item l1 cs = None
    /\ cs !! i = Some c
    /\ ThreeDimensionalPacking.too_large c item = false
    /\ ThreeDimensionalPacking.find_bottom_left_back_position c item
       = Some (x, y, z)
    /\ Container.place_item c item (x, y, z) = (true, c', item')
    /\ cs' = <[i := c']> cs
    /\ entry =
       mkPlacement (Item.item_id item) (Container.container_id c)
         (inject_Z x / inject_Z (Container.resolution c),
          inject_Z y / inject_Z (Container.resolution c),
          inject_Z z / inject_Z (Container.resolution c))%Q
         (ThreeDimensionalPacking.dimensions_of item).
Proof.
  induction l as [|i0 l IH]; [discriminate|].
  intros Hs.
  assert (Hrest :
    ThreeDimensionalPacking.try_containers false item [i0] cs = None ->
    ThreeDimensionalPacking.try_containers false item l cs
      = Some (cs', item', entry) ->
    exists l1 i l2 c c' x y z,
      i0 :: l = l1 ++ i :: l2
      /\ ThreeDimensionalPacking.try_containers false item l1 cs = None
      /\ cs !! i = Some c
      /\ ThreeDimensionalPacking.too_large c item = false
      /\ ThreeDimensionalPacking.find_bottom_left_back_position c item
         = Some (x, y, z)
      /\ Container.place_item c item (x, y, z) = (true, c', item')
      /\ cs' = <[i := c']> cs
      /\ entry =
         mkPlacement (Item.item_id item) (Container.container_id c)
           (inject_Z x / inject_Z (Container.resolution c),
            inject_Z y / inject_Z (Container.resolution c),
            inject_Z z / inject_Z (Container.resolution c))%Q
           (ThreeDimensionalPacking.dimensions_of item)).
  { intros H0 H.
    destruct (IH H) as (l1 & i & l2 & c & c' & x & y & z & -> & Hn & Hrest).
    exists (i0 :: l1), i, l2, c, c', x, y, z.
    split; [reflexivity|]. split; [|exact Hrest].
    change (i0 :: l1) with ([i0] ++ l1).
    rewrite try_containers_app, H0. exact Hn. }
  cbn [ThreeDimensionalPacking.try_containers] in Hs, Hrest.
  destruct (cs !! i0) as [c|] eqn:Hc; [|exact (Hrest eq_refl Hs)].
  cbn [andb] in Hs, Hrest.
  destruct (ThreeDimensionalPacking.too_large c item) eqn:Ht;
    [exact (Hrest eq_refl Hs)|].
  destruct (ThreeDimensionalPacking.find_bottom_left_back_position c item)
    as [[[x y] z]|] eqn:Hf; [|exact (Hrest eq_refl Hs)].
  destruct (Container.place_item c item (x, y, z)) as [[ok c'] item0] eqn:Hp.
  destruct ok; [|exact (Hrest eq_refl Hs)].
  injection Hs as <- <- <-.
  exists [], i0, l, c, c', x, y, z.
  repeat split; try reflexivity; assumption.
Qed.

Lemma matching_containers_partition (cs : list Container.t) (item : Item.t) :
  let matches i :=
    match cs !! i with
    | Some c => ThreeDimensionalPacking.zone_matches c item
    | None => false
    end in
  ThreeDimensionalPacking.matching_containers false cs item
  = List.filter matches (seq 0 (length cs))
    ++ List.filter (fun i => negb (matches i)) (seq 0 (length cs)).
Proof.
  cbv zeta. unfold ThreeDimensionalPacking.matching_containers.
  apply py_sorted_partition.
Qed.

(** Without zone enforcement (the mode of [run_packing_simulation]) the
    candidate part of an iteration of [pack_items] has one of two outcomes.
    Either the item is placed in a container that passes the size pre-check
    and in which the search finds a position, and then every container tried
    before it, that is every zone-matching container when the chosen one
    does not match and every earlier container of the same kind, could not
    take the item; or every container fails the pre-check or the search, the
    containers are left as they were and the item is reported with the
    reason ["No suitable position found"]. *)
Theorem zone_matching_containers_first (st : ThreeDimensionalPacking.LoopState)
    (item : Item.t) :
  let cs := ThreeDimensionalPacking.ls_containers st in
  (exists i c c' item' x y z,
      cs !! i = Some c
      /\ ThreeDimensionalPacking.too_large c item = false
      /\ ThreeDimensionalPacking.find_bottom_left_back_position c item
         = Some (x, y, z)
      /\ Container.place_item c item (x, y, z) = (true, c', item')
      /\ (forall j cj, cs !! j = Some cj -> tried_before item j cj i c ->
          rejects cj item)
      /\ ThreeDimensionalPacking.search_and_place false st item
         = ThreeDimensionalPacking.mkLoop (<[i := c']> cs)
             (ThreeDimensionalPacking.ls_items st ++ [item'])
             (ThreeDimensionalPacking.ls_successful st
              ++ [mkPlacement (Item.item_id item) (Container.container_id c)
                    (inject_Z x / inject_Z (Container.resolution c),
                     inject_Z y / inject_Z (Container.resolution c),
                     inject_Z z / inject_Z (Container.resolution c))%Q
                    (ThreeDimensionalPacking.dimensions_of item)])
             (ThreeDimensionalPacking.ls_unplaced st))
  \/ ((forall j cj, cs !! j = Some cj -> rejects cj item)
      /\ ThreeDimensionalPacking.search_and_place false st item
         = ThreeDimensionalPacking.mkLoop cs
             (ThreeDimensionalPacking.ls_items st ++ [item])
             (ThreeDimensionalPacking.ls_successful st)
             (ThreeDimensionalPacking.ls_unplaced st
              ++ [mkUnplaced (Item.item_id item)
                    "No suitable position found"])).
Proof.
  cbv zeta. set (cs := ThreeDimensionalPacking.ls_containers st).
  unfold ThreeDimensionalPacking.search_and_place. cbv zeta.
  cbn [andb]. fold cs.
  pose proof (matching_containers_partition cs item) as Hm. cbv zeta in Hm.
  set (matches := fun i : nat =>
         match cs !! i with
         | Some c => ThreeDimensionalPacking.zone_matches c item
         | None => false
         end) in Hm.
  assert (Hmatch : forall j cj, cs !! j = Some cj ->
            matches j = ThreeDimensionalPacking.zone_matches cj item).
  { intros j cj Hj. unfold matches. rewrite Hj. reflexivity. }
  assert (Hseq : forall j cj, cs !! j = Some cj -> In j (seq 0 (length cs))).
  { intros j cj Hj. apply in_seq. apply lookup_lt_Some in Hj. lia. }
  rewrite Hm, try_containers_app.
  destruct (ThreeDimensionalPacking.try_containers false item
              (List.filter matches (seq 0 (length cs))) cs)
    as [[[cs' item'] entry]|] eqn:H1.
  - left.
    destruct (try_containers_first _ _ _ _ _ _ H1)
      as (l1 & i & l2 & c & c' & x & y & z
          & Hl & Hn & Hc & Ht & Hf & Hp & -> & ->).
    exists i, c, c', item', x, y, z.
    split; [exact Hc|]. split; [exact Ht|]. split; [exact Hf|].
    split; [exact Hp|]. split; [|reflexivity].
    assert (Hi : matches i = true).
    { assert (In i (List.filter matches (seq 0 (length cs)))) as Hin
        by (rewrite Hl; apply in_elt).
      apply filter_In in Hin. apply Hin. }
    rewrite (Hmatch i c Hc) in Hi.
    intros j cj Hj [[_ Hz]|[Hz Hlt]]; [congruence|].
    apply (try_containers_None item l1 cs Hn j cj); [|exact Hj].
    apply (filter_seq_before matches _ 0 l1 l2 i j Hl); [lia|].
    rewrite (Hmatch j cj Hj). congruence.
  - destruct (ThreeDimensionalPacking.try_containers false item
                (List.filter (fun i => negb (matches i))
                   (seq 0 (length cs))) cs)
      as [[[cs' item'] entry]|] eqn:H2.
    + left.
      destruct (try_containers_first _ _ _ _ _ _ H2)
        as (l1 & i & l2 & c & c' & x & y & z
            & Hl & Hn & Hc & Ht & Hf & Hp & -> & ->).
      exists i, c, c', item', x, y, z.
      split; [exact Hc|]. split; [exact Ht|]. split; [exact Hf|].
      split; [exact Hp|]. split; [|reflexivity].
      assert (Hi : matches i = false).
      { assert (In i (List.filter (fun i => negb (matches i))
                        (seq 0 (length cs)))) as Hin
          by (rewrite Hl; apply in_elt).
        apply filter_In in Hin. destruct Hin as [_ Hin].
        destruct (matches i); [discriminate|reflexivity]. }
      rewrite (Hmatch i c Hc) in Hi.
      intros j cj Hj [[Hz _]|[Hz Hlt]].
      * apply (try_containers_None item _ cs H1 j cj); [|exact Hj].
        apply filter_In. split; [exact (Hseq j cj Hj)|].
        rewrite (Hmatch j cj Hj). exact Hz.
      * apply (try_containers_None item l1 cs Hn j cj); [|exact Hj].
        apply (filter_seq_before (fun i => negb (matches i)) _ 0 l1 l2 i j Hl);
          [lia|].
        rewrite (Hmatch j cj Hj), Hz, Hi. reflexivity.
    + right. split; [|reflexivity].
      intros j cj Hj.
      destruct (ThreeDimensionalPacking.zone_matches cj item) eqn:Hz.
      * apply (try_containers_None item _ cs H1 j cj); [|exact Hj].
        apply filter_In. split; [exact (Hseq j cj Hj)|].
        rewrite (Hmatch j cj Hj). exact Hz.
      * apply (try_containers_None item _ cs H2 j cj); [|exact Hj].
        apply filter_In. split; [exact (Hseq j cj Hj)|].
        rewrite (Hmatch j cj Hj), Hz. reflexivity.
Qed.

(** * Positions supplied to [run_packing_simulation] *)


